(** * Build-time ingestion scripts: [scripts/fetch_news.py] and
      [scripts/fetch_prices.py]

    A shallow embedding of the two scripts' [main] functions and the
    properties of their normalisation and ticker-deduplication logic.

    Python values are the JSON data model ([pyval]); a [dict] is an
    insertion-ordered association list with unique keys; exceptions are
    an explicit result type ([res]); the output directory, the provider
    and the clock are explicit state and oracles.

    A path is read the way [pathlib] and a POSIX system read it: a
    plain name is the entry of that name, a name with a [.] component
    in front is the same entry, and any other path is left to an
    oracle of the run that says which file it denotes or which
    exception it raises ([locate]).

    What the model leaves out: console output; failures of the clock
    and of the file system other than those a path causes (a full
    disk, a file that may not be read); provider values outside the
    JSON types; the binary representation of floats (a finite float
    stands for the rational it denotes, and its shortest decimal
    rendering is what the JSON file shows). Strings stand for their
    UTF-8 bytes. *)

From Stdlib Require Import ZArith QArith String Ascii List Permutation Lia.
From Stdlib Require Import OrderedTypeEx.
From stdpp Require Import base option list gmap strings sorting.

Set Warnings "-register-all".

Local Open Scope string_scope.
Local Open Scope Z_scope.

(** ** Python values and the builtins the scripts use *)
Module Py.

(** Exceptions the scripts can meet; all of them derive from [Exception]. *)
Inductive exn : Type :=
| TypeError
| ValueError
| OverflowError
| KeyError
| AttributeError
| JSONDecodeError
| ProviderError
| OSError.

(** The outcome of evaluating a Python expression or block. *)
Inductive res (A : Type) : Type :=
| Ok (a : A)
| Raise (e : exn).
Arguments Ok {A} a.
Arguments Raise {A} e.

(** Sequencing: the first exception ends the block. *)
#[global] Instance res_ret : MRet res := fun A a => Ok a.
#[global] Instance res_bind : MBind res := fun A B f m =>
  match m with
  | Ok a => f a
  | Raise e => Raise e
  end.

(** [try: body / except Exception: handler] *)
Definition try_except {A : Type} (body : res A) (handler : exn -> A) : A :=
  match body with
  | Ok a => a
  | Raise e => handler e
  end.

(** A [for] loop whose body may raise: the exception leaves the loop. *)
Fixpoint for_loop {S A : Type} (body : S -> A -> res S) (l : list A) (s : S)
  : res S :=
  match l with
  | [] => Ok s
  | x :: l' =>
      match body s x with
      | Ok s' => for_loop body l' s'
      | Raise e => Raise e
      end
  end.

(** A Python [float]: not-a-number, an infinity, or a finite value, kept
    as the rational it denotes (signed zeros are not told apart). *)
Inductive pyfloat : Type :=
| FNaN
| FInf (negative : bool)
| FFin (q : Q).

(** JSON-shaped Python values: what [json.load] returns and what the
    provider library hands back for news. *)
Inductive pyval : Type :=
| PNone
| PBool (b : bool)
| PInt (n : Z)
| PFloat (x : pyfloat)
| PStr (s : string)
| PList (l : list pyval)
| PDict (d : list (string * pyval)).

Definition pydict : Type := list (string * pyval).

(** [isinstance(v, dict)] *)
Definition is_dict (v : pyval) : bool :=
  match v with PDict _ => true | _ => false end.

(** Key lookup, [None] when the key is absent. *)
Fixpoint dict_lookup (k : string) (d : pydict) : option pyval :=
  match d with
  | [] => None
  | (k', v) :: d' => if String.eqb k k' then Some v else dict_lookup k d'
  end.

(** [k in d] *)
Definition dict_mem (k : string) (d : pydict) : bool :=
  match dict_lookup k d with Some _ => true | None => false end.

(** [d.get(k, default)] *)
Definition dict_get (k : string) (default : pyval) (d : pydict) : pyval :=
  match dict_lookup k d with Some v => v | None => default end.

(** [d.get(k)], whose default is [None] *)
Definition dict_get_none (k : string) (d : pydict) : pyval :=
  dict_get k PNone d.

(** [d[k] = v]: the value of an existing key is replaced in place, a new
    key goes to the end. *)
Fixpoint dict_set (k : string) (v : pyval) (d : pydict) : pydict :=
  match d with
  | [] => [(k, v)]
  | (k', v') :: d' =>
      if String.eqb k k' then (k, v) :: d' else (k', v') :: dict_set k v d'
  end.

(** [d[k]] *)
Definition dict_getitem (k : string) (d : pydict) : res pyval :=
  match dict_lookup k d with Some v => Ok v | None => Raise KeyError end.

(** [v.get(k, default)] on an arbitrary value: only a [dict] has the
    method. *)
Definition attr_get (k : string) (default : pyval) (v : pyval) : res pyval :=
  match v with
  | PDict d => Ok (dict_get k default d)
  | _ => Raise AttributeError
  end.

(** [v[k] = x] on an arbitrary value: only a [dict] takes a string key. *)
Definition setitem (k : string) (x : pyval) (v : pyval) : res pyval :=
  match v with
  | PDict d => Ok (PDict (dict_set k x d))
  | _ => Raise TypeError
  end.

(** The elements a [for] loop sees over [v[:n]]: lists and strings can
    be sliced (a string yields one-character strings), every other JSON
    value raises on the subscript. *)
Definition slice_prefix (n : nat) (v : pyval) : res (list pyval) :=
  match v with
  | PList l => Ok (firstn n l)
  | PStr s =>
      Ok (map (fun c => PStr (String c EmptyString))
              (firstn n (list_ascii_of_string s)))
  | _ => Raise TypeError
  end.

(** Values that [v[:n]] accepts. *)
Definition sliceable (v : pyval) : bool :=
  match v with
  | PList _ | PStr _ => true
  | _ => false
  end.

(** Truth value of a list, as in [if processed:]. *)
Definition list_truthy {A : Type} (l : list A) : bool :=
  match l with [] => false | _ => true end.

(** Rounding the fraction [n/d] ([d > 0]) to the nearest integer, ties
    to the even one. *)
Definition round_half_even (n d : Z) : Z :=
  let f := n / d in
  let r := n mod d in
  if 2 * r <? d then f
  else if d <? 2 * r then f + 1
  else if Z.even f then f else f + 1.

(** [round(x, 3)]: a finite float goes to the nearest multiple of
    1/1000 (ties to even); NaN and the infinities come back unchanged. *)
Definition round3 (x : pyfloat) : pyfloat :=
  match x with
  | FFin q => FFin (round_half_even (Qnum q * 1000) (Zpos (Qden q)) # 1000)
  | _ => x
  end.

(** [int(x)] on a float: truncation towards zero; NaN raises
    [ValueError], an infinity [OverflowError]. *)
Definition int_of_float (x : pyfloat) : res Z :=
  match x with
  | FNaN => Raise ValueError
  | FInf _ => Raise OverflowError
  | FFin q => Ok (Z.quot (Qnum q) (Zpos (Qden q)))
  end.

Definition finite (x : pyfloat) : bool :=
  match x with FFin _ => true | _ => false end.

(** [y] is [x] rounded to three decimal places: a multiple of 1/1000 at
    most half a thousandth away from a finite [x]; a NaN or an infinity
    is kept as it is. *)
Definition rounded_to_3dp (x y : pyfloat) : Prop :=
  match x with
  | FFin q =>
      ∃ k : Z, y = FFin (k # 1000) ∧
               ((k # 1000) - (1 # 2000) <= q)%Q ∧
               (q <= (k # 1000) + (1 # 2000))%Q
  | _ => y = x
  end.

(** [v] is the integer part of the finite float [x], towards zero. *)
Definition integer_part (x : pyfloat) (v : Z) : Prop :=
  match x with
  | FFin q =>
      Z.abs v * Zpos (Qden q) <= Z.abs (Qnum q) < (Z.abs v + 1) * Zpos (Qden q) ∧
      0 <= Qnum q * v
  | _ => False
  end.

(** A calendar date as carried by a row label of the price table (years
    of four digits, as the table's timestamps have). *)
Record date : Type := { year : nat; month : nat; day : nat }.

Definition digit (n : nat) : ascii := ascii_of_nat (48 + n mod 10).

Definition pad2 (n : nat) : string :=
  String (digit (n / 10)) (String (digit n) EmptyString).

Definition pad4 (n : nat) : string :=
  String (digit (n / 1000)) (String (digit (n / 100)) (pad2 n)).

(** [d.strftime("%Y-%m-%d")] *)
Definition strftime_ymd (d : date) : string :=
  pad4 (year d) ++ "-" ++ pad2 (month d) ++ "-" ++ pad2 (day d).

Definition is_digit (c : ascii) : bool :=
  ((48 <=? nat_of_ascii c)%nat && (nat_of_ascii c <=? 57)%nat)%bool.

(** Recogniser of the shape [YYYY-MM-DD]. *)
Definition is_ymd (s : string) : bool :=
  match list_ascii_of_string s with
  | [y1; y2; y3; y4; h1; m1; m2; h2; d1; d2] =>
      (forallb is_digit [y1; y2; y3; y4; m1; m2; d1; d2]
       && Ascii.eqb h1 "-" && Ascii.eqb h2 "-")%bool
  | _ => false
  end.

(** [sorted(d.items())]: pairs compared first by key, then by value, in
    code-point order. *)
Definition item_leb (a b : string * string) : bool :=
  match String.compare (fst a) (fst b) with
  | Lt => true
  | Eq => String.leb (snd a) (snd b)
  | Gt => false
  end.

Fixpoint insert_sorted (x : string * string) (l : list (string * string))
  : list (string * string) :=
  match l with
  | [] => [x]
  | y :: l' => if item_leb x y then x :: y :: l' else y :: insert_sorted x l'
  end.

Definition sorted (l : list (string * string)) : list (string * string) :=
  fold_right insert_sorted [] l.

(** A file of the output directory: a JSON document, or text that is
    not JSON (a file cut short by an interrupted earlier run, say;
    [json.dump] writes ASCII only). *)
Inductive file : Type :=
| FJson (v : pyval)
| FGarbage.

(** [json.load] *)
Definition json_load (f : file) : res pyval :=
  match f with
  | FJson v => Ok v
  | FGarbage => Raise JSONDecodeError
  end.

(** [f"{code}.json"], the name that is joined to the output directory. *)
Definition path_of (code : string) : string := code ++ ".json".

Definition has_char (c : ascii) (s : string) : bool :=
  existsb (Ascii.eqb c) (list_ascii_of_string s).

(** A name that is an entry name as it stands: one component, not
    empty, not [.] or [..], without a null byte, and no longer than
    255 bytes, the limit of a file name (NAME_MAX). *)
Definition plain (name : string) : bool :=
  (negb (has_char "/" name) && negb (has_char zero name)
   && negb (String.eqb name EmptyString) && negb (String.eqb name ".")
   && negb (String.eqb name "..") && (String.length name <=? 255)%nat)%bool.

(** The pieces of a path between its slashes. *)
Fixpoint split_slash (s : string) : list string :=
  match s with
  | EmptyString => [EmptyString]
  | String c s' =>
      if Ascii.eqb "/" c then EmptyString :: split_slash s'
      else match split_slash s' with
           | piece :: pieces => String c piece :: pieces
           | [] => [String c EmptyString]
           end
  end.

(** The components [pathlib] keeps of a relative path: empty pieces
    and [.] are dropped, [..] stays. *)
Definition parts (name : string) : list string :=
  List.filter
    (λ piece, negb (String.eqb piece EmptyString) && negb (String.eqb piece "."))
    (split_slash name).

Definition is_absolute (name : string) : bool :=
  match name with
  | String c _ => Ascii.eqb "/" c
  | EmptyString => false
  end.

(** Codes whose artifact name is an entry name as it stands. *)
Definition plain_code (code : string) : bool := plain (path_of code).

(** What a path denotes during a run:
    - [At k]: the file [k], whether it exists yet or not; a file of
      the output directory is known by its entry name;
    - [Absent e]: no file can be there (a sub-directory that is
      missing, a null byte in the name): [exists()] answers [False]
      and [open] raises [e];
    - [Refused e]: the system rejects the path (a name that is too
      long, a directory that may not be searched): [exists()] and
      [open] both raise [e]. *)
Inductive place : Type :=
| At (k : string)
| Absent (e : exn)
| Refused (e : exn).

(** [out_dir / name]: a relative path whose only component is a plain
    name is that entry of the output directory, so [./0001.json] is
    [0001.json]; a null byte makes [open] raise [ValueError]; every
    other path (absolute, through a sub-directory or the parent, too
    long) is what the system [os] makes of it. *)
Definition locate (os : string -> place) (name : string) : place :=
  if has_char zero name then Absent ValueError
  else if is_absolute name then os name
  else match parts name with
       | [c] => if plain c then At c else os name
       | _ => os name
       end.

(** [open(path, "w")]: the file that will be written. *)
Definition open_w (p : place) : res string :=
  match p with
  | At k => Ok k
  | Absent e | Refused e => Raise e
  end.

(** [path.exists()], with the file that is there. *)
Definition exists_at (dir : gmap string file) (p : place)
  : res (option file) :=
  match p with
  | At k => Ok (dir !! k)
  | Absent _ => Ok None
  | Refused e => Raise e
  end.

(** The order [sorted] sorts by. *)
Definition item_le (a b : string * string) : Prop := item_leb a b = true.

(** Files that hold a JSON object. *)
Definition is_json_object (f : file) : bool :=
  match f with
  | FJson (PDict _) => true
  | _ => false
  end.

End Py.
Import Py.

(** ** [scripts/fetch_news.py] *)
Module News.

(** line 50: one level of [content] unwrapping. *)
Definition unwrap_content (article : pyval) : pyval :=
  match article with
  | PDict d => dict_get "content" article d
  | _ => article
  end.

(** line 54 *)
Definition publisher_of (content : pydict) : res pyval :=
  if is_dict (dict_get_none "provider" content)
  then attr_get "displayName" (PStr "") (dict_get "provider" (PDict []) content)
  else Ok (dict_get "publisher" (PStr "") content).

(** line 55 *)
Definition link_of (content : pydict) : res pyval :=
  if is_dict (dict_get_none "canonicalUrl" content)
  then attr_get "url" (PStr "") (dict_get "canonicalUrl" (PDict []) content)
  else Ok (dict_get "link" (dict_get "url" (PStr "") content) content).

(** line 56 *)
Definition publishedAt_of (content : pydict) : pyval :=
  dict_get "pubDate" (dict_get "providerPublishTime" (PStr "") content) content.

(** line 57 *)
Definition thumbnail_of (content : pydict) : res pyval :=
  if is_dict (dict_get_none "thumbnail" content)
  then attr_get "originalUrl" (PStr "") (dict_get "thumbnail" (PDict []) content)
  else Ok (PStr "").

(** line 58: the guard looks at [content.get("finance", {})] and stands
    in front of the whole [get] chain, the direct field included. *)
Definition relatedTickers_of (content : pydict) : res pyval :=
  if is_dict (dict_get "finance" (PDict []) content)
  then inner ← attr_get "relatedTickers" (PList [])
                        (dict_get "finance" (PDict []) content);
       Ok (dict_get "relatedTickers" inner content)
  else Ok (PList []).

(** lines 52-59: the dictionary appended for one article, its entries
    evaluated in the order they are written. *)
Definition article_record (content : pydict) : res pyval :=
  publisher ← publisher_of content;
  link ← link_of content;
  thumbnail ← thumbnail_of content;
  relatedTickers ← relatedTickers_of content;
  Ok (PDict [ ("title", dict_get "title" (PStr "") content);
              ("publisher", publisher);
              ("link", link);
              ("publishedAt", publishedAt_of content);
              ("thumbnail", thumbnail);
              ("relatedTickers", relatedTickers) ]).

(** lines 50-59: the body of the loop, on the list built so far. *)
Definition process_article (processed : list pyval) (article : pyval)
  : res (list pyval) :=
  match unwrap_content article with
  | PDict content =>
      record ← article_record content;
      Ok (processed ++ [record])%list
  | _ => Ok processed
  end.

(** What one entry of the article sequence adds to [processed]. *)
Definition emitted (article : pyval) : list pyval :=
  match process_article [] article with
  | Ok out => out
  | Raise _ => []
  end.

(** lines 40-45: which value is taken as the article sequence. *)
Definition resolve_articles (raw_news : pyval) : res pyval :=
  match raw_news with
  | PDict d => if dict_mem "news" d then dict_getitem "news" d else Ok (PList [])
  | PList _ => Ok raw_news
  | _ => Ok (PList [])
  end.

(** The shape resolution in the specification's words: the [news]
    field of a record that has one, a bare sequence itself, the empty
    sequence otherwise. *)
Definition spec_article_sequence (raw_news : pyval) : pyval :=
  match raw_news with
  | PDict d =>
      match dict_lookup "news" d with
      | Some articles => articles
      | None => PList []
      end
  | PList l => PList l
  | _ => PList []
  end.

(** Responses whose resolved article sequence can be sliced: every
    response but a record whose [news] field is neither a list nor a
    string. *)
Definition news_is_sequence (raw_news : pyval) : bool :=
  sliceable (spec_article_sequence raw_news).

(** The fallback chain of [relatedTickers] as the guard of line 58
    shapes it: a [finance] field that is present and not a record
    empties the result; otherwise the direct field comes first, then
    the one under [finance]. *)
Definition relatedTickers_chain (content : pydict) : pyval :=
  match dict_lookup "finance" content with
  | Some (PDict finance) =>
      match dict_lookup "relatedTickers" content with
      | Some direct => direct
      | None =>
          match dict_lookup "relatedTickers" finance with
          | Some nested => nested
          | None => PList []
          end
      end
  | Some _ => PList []
  | None =>
      match dict_lookup "relatedTickers" content with
      | Some direct => direct
      | None => PList []
      end
  end.

(** The keys lines 53-58 read from an article record. *)
Definition optional_fields : list string :=
  [ "title"; "provider"; "publisher"; "canonicalUrl"; "link"; "url";
    "pubDate"; "providerPublishTime"; "thumbnail"; "relatedTickers";
    "finance" ].

(** The article all of whose fields took their default. *)
Definition blank_article : pyval :=
  PDict [ ("title", PStr ""); ("publisher", PStr ""); ("link", PStr "");
          ("publishedAt", PStr ""); ("thumbnail", PStr "");
          ("relatedTickers", PList []) ].

(** An article record with its own [relatedTickers] and a null
    [finance] field. *)
Definition null_finance_article : pydict :=
  [ ("title", PStr "HSBC results");
    ("relatedTickers", PList [PStr "0005.HK"]);
    ("finance", PNone) ].

(** lines 40-59: from the raw response to [processed]. *)
Definition normalize (raw_news : pyval) : res (list pyval) :=
  articles ← resolve_articles raw_news;
  entries ← slice_prefix 20 articles;
  for_loop process_article entries [].

(** The provider's [Ticker(ticker).news] and the clock behind
    [time.strftime], as functions of what was asked before, and what
    the system makes of the paths [locate] leaves to it. *)
Record world : Type := {
  stock_news : list string -> string -> res pyval;
  clock : nat -> string;
  os_path : string -> place
}.

(** The variables of [main] and the files the run can reach, each
    under the name [locate] knows it by; [calls] logs the tickers the
    provider was asked for, [ticks] counts clock reads. *)
Record state : Type := {
  out_dir : gmap string file;
  news_index : pydict;
  success_count : nat;
  error_count : nat;
  calls : list string;
  ticks : nat
}.

Definition init (files : gmap string file) : state :=
  {| out_dir := files; news_index := []; success_count := 0;
     error_count := 0; calls := []; ticks := 0 |}.

Definition news_artifact (ticker code : string) (processed : list pyval)
    (fetchedAt : string) : pyval :=
  PDict [ ("ticker", PStr ticker); ("code", PStr code);
          ("articles", PList processed); ("fetchedAt", PStr fetchedAt) ].

(** line 62: [out_dir / f"{code}.json"] *)
Definition out_path (w : world) (code : string) : place :=
  locate (os_path w) (path_of code).

(** lines 63-66, once [out_path] is open as the file [out], on the
    state left by the provider call. *)
Definition store (w : world) (st : state) (out code ticker : string)
    (processed : list pyval) : state :=
  {| out_dir := <[out := FJson (news_artifact ticker code processed
                                              (clock w (ticks st)))]>
                  (out_dir st);
     news_index :=
       dict_set code
         (PDict [ ("ticker", PStr ticker);
                  ("count", PInt (Z.of_nat (length processed))) ])
         (news_index st);
     success_count := S (success_count st);
     error_count := error_count st;
     calls := calls st;
     ticks := S (ticks st) |}.

(** lines 35-73: one iteration. Nothing is assigned in the [try] block
    before its last operation that can raise, so the handler starts from
    the state in which the provider was called. *)
Definition step (w : world) (st : state) (item : string * string) : state :=
  let '(code, ticker) := item in
  let asked :=
    {| out_dir := out_dir st; news_index := news_index st;
       success_count := success_count st; error_count := error_count st;
       calls := (calls st ++ [ticker])%list; ticks := ticks st |} in
  try_except
    (raw_news ← stock_news w (calls st) ticker;
     processed ← normalize raw_news;
     if list_truthy processed then
       out ← open_w (out_path w code);
       Ok (store w asked out code ticker processed)
     else Ok asked)
    (fun _ =>
       {| out_dir := out_dir asked; news_index := news_index asked;
          success_count := success_count asked;
          error_count := S (error_count asked);
          calls := calls asked; ticks := ticks asked |}).

(** lines 75-82; [index.json] is a plain name, the entry of that
    name. *)
Definition write_index (w : world) (st : state) : state :=
  {| out_dir :=
       <["index.json" :=
           FJson (PDict [ ("stocks", PDict (news_index st));
                          ("fetchedAt", PStr (clock w (ticks st)));
                          ("totalStocks", PInt (Z.of_nat (success_count st))) ])]>
         (out_dir st);
     news_index := news_index st;
     success_count := success_count st;
     error_count := error_count st;
     calls := calls st;
     ticks := S (ticks st) |}.

(** A provider that has no news for any ticker; as in the other
    example worlds, the output directory has no sub-directory and
    nothing outside it can be written. *)
Definition provider_no_news : world :=
  {| stock_news := λ _ _, Ok (PDict [("news", PList [])]);
     clock := λ _, "2024-03-28T18:00:00Z";
     os_path := λ _, Absent OSError |}.

(** [main], from the loaded [ticker_map] and the files already in the
    output directory. *)
Definition main (w : world) (files : gmap string file)
    (ticker_map : list (string * string)) : state :=
  write_index w (fold_left (step w) (sorted ticker_map) (init files)).

(** The entries that give an article: a record without a [content]
    key, and a record whose [content] is a record. *)
Definition kept (article : pyval) : bool :=
  match article with
  | PDict d =>
      match dict_lookup "content" d with
      | None => true
      | Some (PDict _) => true
      | Some _ => false
      end
  | _ => false
  end.

(** The fallback chains of lines 54, 55 and 57, as lookups. *)
Definition publisher_chain (content : pydict) : pyval :=
  match dict_lookup "provider" content with
  | Some (PDict provider) => dict_get "displayName" (PStr "") provider
  | _ => dict_get "publisher" (PStr "") content
  end.

Definition link_chain (content : pydict) : pyval :=
  match dict_lookup "canonicalUrl" content with
  | Some (PDict canonical) => dict_get "url" (PStr "") canonical
  | _ =>
      match dict_lookup "link" content with
      | Some link => link
      | None => dict_get "url" (PStr "") content
      end
  end.

Definition thumbnail_chain (content : pydict) : pyval :=
  match dict_lookup "thumbnail" content with
  | Some (PDict thumbnail) => dict_get "originalUrl" (PStr "") thumbnail
  | _ => PStr ""
  end.

Definition publishedAt_chain (content : pydict) : pyval :=
  match dict_lookup "pubDate" content with
  | Some published => published
  | None => dict_get "providerPublishTime" (PStr "") content
  end.

(** Every code of the index has its artifact under the name
    [path_of] gives it, with between 1 and 20 articles, as many as the
    index counts. *)
Definition index_backed (st : state) : Prop :=
  ∀ c e,
    dict_lookup c (news_index st) = Some e →
    ∃ t processed fetchedAt,
      out_dir st !! path_of c
        = Some (FJson (news_artifact t c processed fetchedAt)) ∧
      e = PDict [ ("ticker", PStr t);
                  ("count", PInt (Z.of_nat (length processed))) ] ∧
      (1 ≤ length processed ≤ 20)%nat.

(** A feed whose first twenty entries carry the same title, followed by
    [tail]. *)
Definition long_feed (tail : list pyval) : pyval :=
  PList (replicate 20 (PDict [("title", PStr "X")]) ++ tail)%list.

(** A provider whose answer has a null [news] field. *)
Definition provider_null_news : world :=
  {| stock_news := λ _ _, Ok (PDict [("news", PNone)]);
     clock := λ _, "2024-03-28T18:00:00Z";
     os_path := λ _, Absent OSError |}.

(** A provider that is down, and one with one article per ticker. *)
Definition provider_down : world :=
  {| stock_news := λ _ _, Raise ProviderError;
     clock := λ _, "2024-03-28T18:00:00Z";
     os_path := λ _, Absent OSError |}.

Definition provider_one_article : world :=
  {| stock_news := λ _ _,
       Ok (PDict [("news", PList [PDict [("content",
                                          PDict [("title", PStr "X")])]])]);
     clock := λ _, "2024-03-28T18:00:00Z";
     os_path := λ _, Absent OSError |}.

End News.

(** ** [scripts/fetch_prices.py] *)
Module Prices.

(** One row of the price table, as [iterrows] yields it (a row of
    floats, the volume included). *)
Record row : Type := {
  Open : pyfloat;
  High : pyfloat;
  Low : pyfloat;
  Close : pyfloat;
  Volume : pyfloat
}.

(** The table [history] returns: rows labelled by their date, oldest
    first. *)
Definition hist : Type := list (date * row).

(** lines 65-72: the dictionary appended for one row; only [int] can
    raise. *)
Definition price_bar (d : date) (r : row) : res pyval :=
  volume ← int_of_float (Volume r);
  Ok (PDict [ ("date", PStr (strftime_ymd d));
              ("open", PFloat (round3 (Open r)));
              ("high", PFloat (round3 (High r)));
              ("low", PFloat (round3 (Low r)));
              ("close", PFloat (round3 (Close r)));
              ("volume", PInt volume) ]).

(** lines 63-72: the loop over [hist.iterrows()]. *)
Definition normalize (h : hist) : res (list pyval) :=
  for_loop (fun prices '(d, r) =>
              bar ← price_bar d r;
              Ok (prices ++ [bar])%list)
           h [].

(** The [PriceBar] of a row in the specification's words: the date as
    [YYYY-MM-DD], the four prices rounded to three decimal places, the
    volume as an integer. *)
Definition bar_of_row (item : date * row) (bar : pyval) : Prop :=
  ∃ (day : string) (open high low close : pyfloat) (volume : Z),
    bar = PDict [ ("date", PStr day); ("open", PFloat open);
                  ("high", PFloat high); ("low", PFloat low);
                  ("close", PFloat close); ("volume", PInt volume) ] ∧
    day = strftime_ymd (fst item) ∧ is_ymd day = true ∧
    rounded_to_3dp (Open (snd item)) open ∧
    rounded_to_3dp (High (snd item)) high ∧
    rounded_to_3dp (Low (snd item)) low ∧
    rounded_to_3dp (Close (snd item)) close ∧
    integer_part (Volume (snd item)) volume.

(** A two-row table. *)
Definition sample_hist : hist :=
  [ ({| year := 2024; month := 3; day := 27 |},
     {| Open := FFin (635 # 10); High := FFin (64 # 1);
        Low := FFin (63 # 1); Close := FFin (127845 # 2000);
        Volume := FFin (1250300 # 1) |});
    ({| year := 2024; month := 3; day := 28 |},
     {| Open := FFin (64 # 1); High := FFin (6455 # 100);
        Low := FFin (6385 # 100); Close := FFin (128471 # 2000);
        Volume := FFin (0 # 1) |}) ].

(** A one-row table whose volume is missing. *)
Definition nan_volume_hist : hist :=
  [ ({| year := 2024; month := 3; day := 28 |},
     {| Open := FFin (64 # 1); High := FFin (6455 # 100);
        Low := FFin (6385 # 100); Close := FFin (128471 # 2000);
        Volume := FNaN |}) ].

(** The provider's [Ticker(ticker).history(period="1y", interval="1d")]
    and the clock behind [time.strftime], as functions of what was
    asked before, and what the system makes of the paths [locate]
    leaves to it. *)
Record world : Type := {
  history : list string -> string -> res hist;
  clock : nat -> string;
  os_path : string -> place
}.

(** The variables of [main] and the files the run can reach, each
    under the name [locate] knows it by; [calls] logs the tickers the
    provider was asked for, [ticks] counts clock reads. *)
Record state : Type := {
  out_dir : gmap string file;
  price_index : pydict;
  success_count : nat;
  error_count : nat;
  seen_tickers : gmap string string;
  calls : list string;
  ticks : nat
}.

Definition init (files : gmap string file) : state :=
  {| out_dir := files; price_index := []; success_count := 0;
     error_count := 0; seen_tickers := ∅; calls := []; ticks := 0 |}.

(** lines 76-82: the document written for a fetched symbol. *)
Definition price_artifact (ticker code : string) (prices : list pyval)
    (fetchedAt : string) : pydict :=
  [ ("ticker", PStr ticker); ("code", PStr code);
    ("days", PInt (Z.of_nat (length prices)));
    ("prices", PList prices); ("fetchedAt", PStr fetchedAt) ].

Definition index_entry (ticker : string) (days : pyval) : pyval :=
  PDict [ ("ticker", PStr ticker); ("days", days) ].

(** lines 40, 46 and 74: [out_dir / f"{code}.json"] *)
Definition out_path (w : world) (code : string) : place :=
  locate (os_path w) (path_of code).

(** lines 38-52: the ticker was seen before under [src_code]. This part
    of the loop body stands outside the [try] block: what [exists],
    [json.load], the assignment and [open] raise leaves the loop. *)
Definition reuse (w : world) (st : state) (code ticker src_code : string)
  : res state :=
  found ← exists_at (out_dir st) (out_path w src_code);
  match found with
  | Some f =>
      loaded ← json_load f;
      data ← setitem "code" (PStr code) loaded;
      out ← open_w (out_path w code);
      days ← attr_get "days" (PInt 0) data;
      Ok {| out_dir := <[out := FJson data]> (out_dir st);
            price_index := dict_set code (index_entry ticker days)
                                    (price_index st);
            success_count := S (success_count st);
            error_count := error_count st;
            seen_tickers := seen_tickers st;
            calls := calls st;
            ticks := ticks st |}
  | None => Ok st
  end.

(** lines 75-86, once [out_path] is open as the file [out], on the
    state in which the provider was called. *)
Definition store (w : world) (st : state) (out code ticker : string)
    (prices : list pyval) : state :=
  {| out_dir := <[out :=
                    FJson (PDict (price_artifact ticker code prices
                                                 (clock w (ticks st))))]>
                  (out_dir st);
     price_index := dict_set code
                      (index_entry ticker (PInt (Z.of_nat (length prices))))
                      (price_index st);
     success_count := S (success_count st);
     error_count := error_count st;
     seen_tickers := seen_tickers st;
     calls := calls st;
     ticks := S (ticks st) |}.

(** lines 53-90: a ticker not seen before. It is entered in
    [seen_tickers] first; nothing else is assigned in the [try] block
    before its last operation that can raise, so the handler starts
    from the state in which the provider was called. *)
Definition fetch (w : world) (st : state) (code ticker : string) : state :=
  let asked :=
    {| out_dir := out_dir st; price_index := price_index st;
       success_count := success_count st; error_count := error_count st;
       seen_tickers := <[ticker := code]> (seen_tickers st);
       calls := (calls st ++ [ticker])%list; ticks := ticks st |} in
  try_except
    (h ← history w (calls st) ticker;
     match h with
     | [] => Ok asked
     | _ =>
         prices ← normalize h;
         out ← open_w (out_path w code);
         Ok (store w asked out code ticker prices)
     end)
    (fun _ =>
       {| out_dir := out_dir asked; price_index := price_index asked;
          success_count := success_count asked;
          error_count := S (error_count asked);
          seen_tickers := seen_tickers asked;
          calls := calls asked; ticks := ticks asked |}).

(** lines 36-90: one iteration. *)
Definition step (w : world) (st : state) (item : string * string)
  : res state :=
  let '(code, ticker) := item in
  match seen_tickers st !! ticker with
  | Some src_code => reuse w st code ticker src_code
  | None => Ok (fetch w st code ticker)
  end.

(** lines 92-99; [index.json] is a plain name, the entry of that
    name. *)
Definition write_index (w : world) (st : state) : state :=
  {| out_dir :=
       <["index.json" :=
           FJson (PDict [ ("stocks", PDict (price_index st));
                          ("fetchedAt", PStr (clock w (ticks st)));
                          ("totalStocks", PInt (Z.of_nat (success_count st))) ])]>
         (out_dir st);
     price_index := price_index st;
     success_count := success_count st;
     error_count := error_count st;
     seen_tickers := seen_tickers st;
     calls := calls st;
     ticks := S (ticks st) |}.

(** lines 36-90: the loop over the sorted items. *)
Definition loop (w : world) (items : list (string * string)) (st : state)
  : res state :=
  for_loop (step w) items st.

(** The provider was asked at most once for each ticker, and every
    ticker it was asked for is in [seen_tickers]. *)
Definition calls_ok (st : state) : Prop :=
  NoDup (calls st) ∧ ∀ t, t ∈ calls st → is_Some (seen_tickers st !! t).

(** How often the provider was asked for [ticker]. *)
Definition invocations (ticker : string) (st : state) : nat :=
  count_occ string_dec (calls st) ticker.

(** [main], from the loaded [ticker_map] and the files already in the
    output directory; an exception that leaves the loop leaves [main]. *)
Definition main (w : world) (files : gmap string file)
    (ticker_map : list (string * string)) : res state :=
  st ← loop w (sorted ticker_map) (init files);
  Ok (write_index w st).

(** What a run shows of itself: the file at [path], and the success and
    error counts; nothing when an exception left [main]. *)
Definition observe (run : res state) (path : string)
  : option (option file * nat * nat) :=
  match run with
  | Ok st => Some (out_dir st !! path, success_count st, error_count st)
  | Raise _ => None
  end.

(** Two codes of one instrument, as [json.load] may hand them over. *)
Definition dual_listing : list (string * string) :=
  [ ("0002", "0001.HK"); ("0001", "0001.HK") ].


(** Providers: one that is down, one that answers with [sample_hist],
    one that answers with [nan_volume_hist]; in each of these worlds
    the output directory has no sub-directory and nothing outside it
    can be written. *)
Definition provider_down : world :=
  {| history := λ _ _, Raise ProviderError;
     clock := λ _, "2024-03-28T18:00:00Z";
     os_path := λ _, Absent OSError |}.

Definition provider_up : world :=
  {| history := λ _ _, Ok sample_hist;
     clock := λ _, "2024-03-28T18:00:00Z";
     os_path := λ _, Absent OSError |}.

Definition provider_nan : world :=
  {| history := λ _ _, Ok nan_volume_hist;
     clock := λ _, "2024-03-28T18:00:00Z";
     os_path := λ _, Absent OSError |}.


(** The artifact an earlier run left for code 0001. *)
Definition stale_artifact : pydict :=
  price_artifact "0001.HK" "0001"
    [ PDict [ ("date", PStr "2024-03-27"); ("open", PFloat (FFin (63500 # 1000)));
              ("high", PFloat (FFin (64000 # 1000)));
              ("low", PFloat (FFin (63000 # 1000)));
              ("close", PFloat (FFin (63922 # 1000)));
              ("volume", PInt 1250300) ] ]
    "2024-03-27T18:00:00Z".

(** Output directories found at the start of a run: with the artifact of
    an earlier run, and with that file cut short. *)
Definition stale_dir : gmap string file :=
  {[ "0001.json" := FJson (PDict stale_artifact) ]}.

Definition corrupt_dir : gmap string file :=
  {[ "0001.json" := FGarbage ]}.

(** A state in which ticker 0001.HK was fetched under code 0001. *)
Definition after_0001 : state :=
  {| out_dir := stale_dir; price_index := [];
     success_count := 1; error_count := 0;
     seen_tickers := {[ "0001.HK" := "0001" ]};
     calls := ["0001.HK"]; ticks := 1 |}.




(** The first code, in loop order, that maps to [ticker]. *)
Definition first_code (ticker : string) (items : list (string * string))
  : option string :=
  fst <$> List.find (λ item, String.eqb (snd item) ticker) items.

(** Every file of the directory holds a JSON object. *)
Definition all_objects (files : gmap string file) : Prop :=
  map_Forall (λ _ f, is_json_object f = true) files.

(** Every code of the index has its document under the name [path_of]
    gives it: a JSON object whose [code] is that code and whose [days]
    (0 when the document has none) is what the index reports. *)
Definition index_backed (st : state) : Prop :=
  ∀ c e,
    dict_lookup c (price_index st) = Some e →
    ∃ d t,
      out_dir st !! path_of c = Some (FJson (PDict d)) ∧
      dict_lookup "code" d = Some (PStr c) ∧
      e = index_entry t (dict_get "days" (PInt 0) d).

(** A provider that knows 0001.HK only. *)
Definition provider_partial : world :=
  {| history := λ _ ticker,
       if String.eqb ticker "0001.HK" then Ok sample_hist
       else Raise ProviderError;
     clock := λ _, "2024-03-28T18:00:00Z";
     os_path := λ _, Absent OSError |}.

(** Three codes, two of them for one instrument. *)
Definition three_listing : list (string * string) :=
  [ ("0002", "0001.HK"); ("0700", "0700.HK"); ("0001", "0001.HK") ].

End Prices.

(** * Properties *)

(** ** Dictionaries *)

Lemma dict_lookup_set_eq (k : string) (v : pyval) (d : pydict) :
  dict_lookup k (dict_set k v d) = Some v.
Proof.
  induction d as [|[k' v'] d IH]; simpl.
  - by rewrite String.eqb_refl.
  - destruct (String.eqb k k') eqn:E; simpl.
    + by rewrite String.eqb_refl.
    + by rewrite E.
Qed.

Lemma dict_lookup_set_ne (k k' : string) (v : pyval) (d : pydict) :
  k ≠ k' → dict_lookup k' (dict_set k v d) = dict_lookup k' d.
Proof.
  intros Hne. induction d as [|[k0 v0] d IH]; simpl.
  - destruct (String.eqb k' k) eqn:E; [|done].
    apply String.eqb_eq in E. congruence.
  - destruct (String.eqb k k0) eqn:E; simpl.
    + apply String.eqb_eq in E. subst k0.
      destruct (String.eqb k' k) eqn:E'; [|done].
      apply String.eqb_eq in E'. congruence.
    + by rewrite IH.
Qed.

(** Distinct codes give distinct names; whether the names denote
    distinct files is for [locate] to say. *)
Lemma path_of_inj (c c' : string) : path_of c = path_of c' → c = c'.
Proof.
  unfold path_of. revert c'.
  induction c as [|a c IH]; intros [|a' c']; simpl; intros H.
  - done.
  - injection H as Ha Hc. destruct c' as [|? [|? [|? [|? [|? ?]]]]]; discriminate.
  - injection H as Ha Hc. destruct c as [|? [|? [|? [|? [|? ?]]]]]; discriminate.
  - injection H as Ha Hc. f_equal; [done|by apply IH].
Qed.

Lemma path_of_index (c : string) : c ≠ "index" → "index.json" ≠ path_of c.
Proof.
  intros Hne E. apply Hne. symmetry. by apply path_of_inj.
Qed.

(** ** Loops *)

Lemma for_loop_app {S A : Type} (body : S → A → res S) (l1 l2 : list A) (s : S) :
  for_loop body (l1 ++ l2)%list s =
  match for_loop body l1 s with
  | Ok s' => for_loop body l2 s'
  | Raise e => Raise e
  end.
Proof.
  revert s. induction l1 as [|x l1 IH]; intros s; simpl; [done|].
  destruct (body s x); [apply IH|done].
Qed.

(** A loop that appends what each element contributes builds the
    concatenation of the contributions, in the order of the elements. *)
Lemma for_loop_append {A B : Type} (body : list B → A → res (list B))
    (out : A → list B) (l : list A) (acc : list B) :
  (∀ acc' x, body acc' x = Ok (acc' ++ out x)%list) →
  for_loop body l acc = Ok (acc ++ flat_map out l)%list.
Proof.
  intros Hbody. revert acc.
  induction l as [|x l IH]; intros acc; simpl.
  - by rewrite app_nil_r.
  - rewrite Hbody, IH. by rewrite <- app_assoc.
Qed.

(** ** The news normaliser *)

Section NewsNormalizer.

Import News.

Lemma publisher_of_ok (content : pydict) : ∃ v, publisher_of content = Ok v.
Proof.
  unfold publisher_of, dict_get_none, dict_get.
  destruct (dict_lookup "provider" content) as [[]|]; simpl; eauto.
Qed.

Lemma link_of_ok (content : pydict) : ∃ v, link_of content = Ok v.
Proof.
  unfold link_of, dict_get_none, dict_get.
  destruct (dict_lookup "canonicalUrl" content) as [[]|]; simpl; eauto.
Qed.

Lemma thumbnail_of_ok (content : pydict) : ∃ v, thumbnail_of content = Ok v.
Proof.
  unfold thumbnail_of, dict_get_none, dict_get.
  destruct (dict_lookup "thumbnail" content) as [[]|]; simpl; eauto.
Qed.

Lemma relatedTickers_of_ok (content : pydict) :
  ∃ v, relatedTickers_of content = Ok v.
Proof.
  unfold relatedTickers_of, dict_get.
  destruct (dict_lookup "finance" content) as [[]|]; simpl; eauto.
Qed.

(** No guard of lines 53-58 lets an attribute error through. *)
Lemma article_record_ok (content : pydict) :
  ∃ fields, article_record content = Ok (PDict fields).
Proof.
  unfold article_record.
  destruct (publisher_of_ok content) as [p ->].
  destruct (link_of_ok content) as [l ->].
  destruct (thumbnail_of_ok content) as [t ->].
  destruct (relatedTickers_of_ok content) as [r ->].
  simpl. eauto.
Qed.

Lemma process_article_emitted (processed : list pyval) (article : pyval) :
  process_article processed article = Ok (processed ++ emitted article)%list.
Proof.
  unfold emitted, process_article.
  destruct (unwrap_content article) as [| | | | | |content];
    try by rewrite app_nil_r.
  destruct (article_record_ok content) as [fields ->]. done.
Qed.

Lemma emitted_length (article : pyval) : (length (emitted article) ≤ 1)%nat.
Proof.
  unfold emitted, process_article.
  destruct (unwrap_content article) as [| | | | | |content]; simpl; try lia.
  destruct (article_record_ok content) as [fields ->]. simpl. lia.
Qed.

Lemma flat_map_emitted_length (l : list pyval) :
  (length (flat_map emitted l) ≤ length l)%nat.
Proof.
  induction l as [|x l IH]; simpl; [lia|].
  rewrite length_app. pose proof (emitted_length x). lia.
Qed.

Lemma emitted_str (s : string) : emitted (PStr s) = [].
Proof. done. Qed.

(** The loop of lines 48-59 never raises, whatever the entries are. *)
Lemma process_loop (entries : list pyval) :
  for_loop process_article entries [] = Ok (flat_map emitted entries).
Proof.
  by rewrite (for_loop_append process_article emitted entries []
                process_article_emitted).
Qed.


Lemma resolve_articles_spec (raw_news : pyval) :
  resolve_articles raw_news = Ok (spec_article_sequence raw_news).
Proof.
  destruct raw_news as [| | | | | |d]; try done.
  unfold resolve_articles, spec_article_sequence, dict_mem, dict_getitem.
  by destruct (dict_lookup "news" d).
Qed.

Lemma normalize_list (raw_news : pyval) (l : list pyval) :
  spec_article_sequence raw_news = PList l →
  normalize raw_news = Ok (flat_map emitted (firstn 20 l)).
Proof.
  intros Hl. unfold normalize.
  rewrite resolve_articles_spec, Hl. simpl.
  apply process_loop.
Qed.

Lemma flat_map_emitted_chars (cs : list ascii) :
  flat_map emitted (map (λ c, PStr (String c EmptyString)) cs) = [].
Proof. induction cs as [|c cs IH]; simpl; [done|by rewrite IH]. Qed.

Lemma normalize_str (raw_news : pyval) (s : string) :
  spec_article_sequence raw_news = PStr s → normalize raw_news = Ok [].
Proof.
  intros Hs. unfold normalize.
  rewrite resolve_articles_spec, Hs. simpl.
  rewrite process_loop. by rewrite flat_map_emitted_chars.
Qed.

(** C4 (as stated, refuted): a response whose [news] field is null is
    a record with a [news] key, and normalising it raises: [None[:20]]
    is a [TypeError]. *)
Lemma normalize_raises_on_null_news :
  normalize (PDict [("news", PNone)]) = Raise TypeError.
Proof. reflexivity. Qed.

(** C4 (amended): the news normalisation completes without raising for
    every raw response whose resolved article sequence is a list or a
    string, that is for a bare list, a record without a [news] key, any
    value that is neither, and a record whose [news] field is a list or
    a string; the entries are arbitrary, and at most 20 articles come
    out. *)
Theorem normalize_completes (raw_news : pyval) :
  news_is_sequence raw_news = true →
  ∃ processed, normalize raw_news = Ok processed ∧ (length processed ≤ 20)%nat.
Proof.
  unfold news_is_sequence. intros Hseq.
  destruct (spec_article_sequence raw_news) as [| | | |s|l|] eqn:E; try done.
  - exists []. split; [by apply (normalize_str _ s)|simpl; lia].
  - exists (flat_map emitted (firstn 20 l)). split; [by apply normalize_list|].
    etrans; [apply flat_map_emitted_length|]. apply firstn_le_length.
Qed.

(** A response with one full entry, one stray string and one null. *)
Lemma normalize_completes_witness :
  ∃ processed,
    normalize
      (PDict [("news", PList [PDict [("content", PDict [("title", PStr "X")])];
                              PStr "stray"; PNone])])
    = Ok processed ∧ (length processed ≤ 20)%nat.
Proof. apply normalize_completes. reflexivity. Defined.

(** C5: the article sequence is the [news] field of a record that has
    one, else the response itself when it is a list, else empty; and
    when it is a list, [processed] is what its first 20 entries emit,
    entry by entry in the provider's order, so never more than 20. *)
Theorem resolution_priority (raw_news : pyval) :
  resolve_articles raw_news = Ok (spec_article_sequence raw_news) ∧
  ∀ l, spec_article_sequence raw_news = PList l →
       normalize raw_news = Ok (flat_map emitted (firstn 20 l)) ∧
       (length (flat_map emitted (firstn 20 l)) ≤ 20)%nat.
Proof.
  split; [apply resolve_articles_spec|].
  intros l Hl. split; [by apply normalize_list|].
  etrans; [apply flat_map_emitted_length|]. apply firstn_le_length.
Qed.

(** C6 (as stated, refuted): the record has a direct [relatedTickers]
    field, yet the normalised field is empty, because its [finance]
    field is present and not a record. *)
Lemma relatedTickers_lost_on_null_finance :
  dict_lookup "relatedTickers" null_finance_article
    = Some (PList [PStr "0005.HK"]) ∧
  normalize (PList [PDict null_finance_article])
    = Ok [PDict [ ("title", PStr "HSBC results"); ("publisher", PStr "");
                  ("link", PStr ""); ("publishedAt", PStr "");
                  ("thumbnail", PStr ""); ("relatedTickers", PList []) ]].
Proof. split; reflexivity. Qed.

(** C6 (amended): for every article record, the normalised
    [relatedTickers] is the empty sequence when [finance] is present
    and not a record; otherwise it is the direct [relatedTickers] field
    when present, else the [relatedTickers] field of the [finance]
    record when there is one, else the empty sequence. *)
Theorem relatedTickers_guarded (content : pydict) :
  ∃ fields,
    article_record content = Ok (PDict fields) ∧
    dict_lookup "relatedTickers" fields = Some (relatedTickers_chain content).
Proof.
  unfold article_record.
  destruct (publisher_of_ok content) as [p ->].
  destruct (link_of_ok content) as [l ->].
  destruct (thumbnail_of_ok content) as [t ->].
  unfold relatedTickers_of, relatedTickers_chain, dict_get.
  destruct (dict_lookup "finance" content) as [[]|]; simpl;
    eexists; (split; [reflexivity|]); simpl; try done.
Qed.

(** C7: an article record with none of the optional fields becomes an
    article with all six fields present, the five strings empty and
    [relatedTickers] the empty sequence. *)
Theorem bare_article_defaults
    (processed : list pyval) (article : pyval) (content : pydict) :
  unwrap_content article = PDict content →
  (∀ k, In k optional_fields → dict_lookup k content = None) →
  process_article processed article = Ok (processed ++ [blank_article])%list.
Proof.
  intros Hcontent Hnone.
  unfold process_article. rewrite Hcontent.
  unfold article_record, publisher_of, link_of, thumbnail_of,
    relatedTickers_of, publishedAt_of, dict_get_none, dict_get.
  rewrite !Hnone by (simpl; tauto).
  reflexivity.
Qed.

(** An entry whose [content] holds an identifier only. *)
Lemma bare_article_defaults_witness :
  process_article [] (PDict [("content", PDict [("id", PStr "a1")])])
  = Ok ([] ++ [blank_article])%list.
Proof.
  apply (bare_article_defaults [] _ [("id", PStr "a1")]); [reflexivity|].
  intros k Hk. simpl in Hk.
  repeat (destruct Hk as [<-|Hk]; [reflexivity|]). destruct Hk.
Defined.

(** The specification's end-to-end example. *)
Example normalize_title_only :
  normalize (PDict [("news", PList [PDict [("content", PDict [("title", PStr "X")])]])])
  = Ok [PDict [ ("title", PStr "X"); ("publisher", PStr ""); ("link", PStr "");
                ("publishedAt", PStr ""); ("thumbnail", PStr "");
                ("relatedTickers", PList []) ]].
Proof. reflexivity. Qed.

End NewsNormalizer.

(** ** The price normaliser *)

Section PriceNormalizer.

Import Prices.

Lemma round_half_even_near (n d : Z) :
  0 < d → Z.abs (2 * (n - round_half_even n d * d)) ≤ d.
Proof.
  intros Hd. unfold round_half_even.
  pose proof (Z.div_mod n d ltac:(lia)) as Hdm.
  pose proof (Z.mod_pos_bound n d Hd) as Hr.
  destruct (2 * (n mod d) <? d) eqn:E1; [apply Z.ltb_lt in E1; nia|].
  apply Z.ltb_ge in E1.
  destruct (d <? 2 * (n mod d)) eqn:E2; [apply Z.ltb_lt in E2; nia|].
  apply Z.ltb_ge in E2.
  destruct (Z.even (n / d)); nia.
Qed.

Lemma round3_rounded (x : pyfloat) : rounded_to_3dp x (round3 x).
Proof.
  destruct x as [| |[n d]]; simpl; try done.
  eexists. split; [reflexivity|].
  pose proof (round_half_even_near (n * 1000) (Zpos d) ltac:(lia)) as H.
  unfold Qle, Qminus, Qplus, Qopp. simpl. lia.
Qed.

Lemma int_of_float_finite (x : pyfloat) :
  finite x = true → ∃ v, int_of_float x = Ok v ∧ integer_part x v.
Proof.
  destruct x as [| |[n d]]; try done. intros _.
  eexists. split; [reflexivity|]. simpl. split.
  - pose proof (Z.quot_abs n (Zpos d) ltac:(lia)) as Habs.
    change (Z.abs (Zpos d)) with (Zpos d) in Habs.
    rewrite <- Habs.
    pose proof (Z.quot_rem' (Z.abs n) (Zpos d)) as Hqr.
    pose proof (Z.rem_bound_pos (Z.abs n) (Zpos d) ltac:(lia) ltac:(lia)) as Hr.
    nia.
  - destruct (Z_le_gt_dec 0 n).
    + pose proof (Z.quot_pos n (Zpos d) ltac:(lia) ltac:(lia)). nia.
    + pose proof (Z.quot_opp_l n (Zpos d) ltac:(lia)).
      pose proof (Z.quot_pos (-n) (Zpos d) ltac:(lia) ltac:(lia)). nia.
Qed.

Lemma is_digit_digit (n : nat) : is_digit (digit n) = true.
Proof.
  unfold is_digit, digit.
  pose proof (Nat.mod_upper_bound n 10 ltac:(lia)) as Hlt.
  rewrite nat_ascii_embedding by lia.
  apply andb_true_intro. split; apply Nat.leb_le; lia.
Qed.

Lemma strftime_ymd_shape (d : date) : is_ymd (strftime_ymd d) = true.
Proof.
  cbv [is_ymd strftime_ymd pad4 pad2 String.append list_ascii_of_string
       forallb].
  rewrite !is_digit_digit. reflexivity.
Qed.

Lemma price_bar_finite (d : date) (r : row) :
  finite (Volume r) = true →
  ∃ bar, price_bar d r = Ok bar ∧ bar_of_row (d, r) bar.
Proof.
  intros Hfin. unfold price_bar.
  destruct (int_of_float_finite _ Hfin) as (v & -> & Hv). simpl.
  eexists. split; [reflexivity|].
  exists (strftime_ymd d), (round3 (Open r)), (round3 (High r)),
    (round3 (Low r)), (round3 (Close r)), v.
  cbn [fst snd].
  repeat split; auto using round3_rounded, strftime_ymd_shape; apply Hv.
Qed.

Lemma normalize_loop_finite (h : hist) (acc : list pyval) :
  Forall (λ item, finite (Volume (snd item)) = true) h →
  ∃ prices,
    for_loop (λ prices '(d, r), bar ← price_bar d r; Ok (prices ++ [bar])%list)
      h acc = Ok (acc ++ prices)%list ∧
    Forall2 bar_of_row h prices.
Proof.
  intros Hfin. revert acc.
  induction Hfin as [|[d r] h Hr _ IH]; intros acc.
  - exists []. simpl. by rewrite app_nil_r.
  - destruct (price_bar_finite d r Hr) as (bar & Hbar & Hspec).
    destruct (IH (acc ++ [bar])%list) as (prices & Hloop & Hall).
    exists (bar :: prices). simpl. rewrite Hbar. simpl.
    rewrite Hloop, <- app_assoc. split; [done|]. by constructor.
Qed.

Lemma normalize_finite (h : hist) :
  Forall (λ item, finite (Volume (snd item)) = true) h →
  ∃ prices, normalize h = Ok prices ∧ Forall2 bar_of_row h prices.
Proof.
  intros Hfin.
  destruct (normalize_loop_finite h [] Hfin) as (prices & Hloop & Hall).
  by exists prices.
Qed.

(** C8 (as stated, refuted): a table of one row whose volume is NaN is
    not empty, and the normaliser emits no bar for it: [int] raises. *)
Lemma normalize_raises_on_nan_volume :
  (length nan_volume_hist = 1)%nat ∧
  normalize nan_volume_hist = Raise ValueError.
Proof. split; reflexivity. Qed.

(** C8 (amended): for every price table all of whose rows have a
    finite volume, the normaliser emits exactly one bar per row, in the
    order of the rows: the date as [YYYY-MM-DD], open, high, low and
    close rounded to three decimal places (a NaN or infinite price is
    passed through), the volume truncated to an integer. No row is
    left out, whatever its values. *)
Theorem one_bar_per_row (h : hist) :
  Forall (λ item, finite (Volume (snd item)) = true) h →
  ∃ prices,
    normalize h = Ok prices ∧
    length prices = length h ∧
    Forall2 bar_of_row h prices.
Proof.
  intros Hfin.
  destruct (normalize_finite h Hfin) as (prices & Hnorm & Hall).
  exists prices. split; [exact Hnorm|]. split; [|done].
  symmetry. by eapply Forall2_length.
Qed.

(** The two rows of [sample_hist]. *)
Lemma one_bar_per_row_witness :
  ∃ prices,
    normalize sample_hist = Ok prices ∧
    length prices = length sample_hist ∧
    Forall2 bar_of_row sample_hist prices.
Proof. apply one_bar_per_row. repeat constructor. Defined.

End PriceNormalizer.

(** ** Paths *)

Section Paths.

Lemma split_slash_plain (s : string) :
  has_char "/" s = false → split_slash s = [s].
Proof.
  unfold has_char. induction s as [|c s IH]; simpl; [done|].
  intros [Hc Hs]%orb_false_elim. rewrite Hc. by rewrite (IH Hs).
Qed.

(** A plain name is the entry of that name, whatever the system makes
    of other paths. *)
Lemma locate_plain (os : string → place) (name : string) :
  plain name = true → locate os name = At name.
Proof.
  intros Hplain. pose proof Hplain as Hp. unfold plain in Hp.
  repeat (apply andb_prop in Hp as [Hp ?]).
  repeat match goal with
         | H : negb _ = true |- _ => apply negb_true_iff in H
         end.
  unfold locate.
  assert (Habs : is_absolute name = false).
  { destruct name as [|c s]; [done|]. simpl.
    unfold has_char in Hp. simpl in Hp. by apply orb_false_elim in Hp as [-> _]. }
  assert (Hparts : parts name = [name]).
  { unfold parts. rewrite (split_slash_plain _ Hp). simpl.
    by repeat match goal with H : String.eqb _ _ = false |- _ => rewrite H end. }
  repeat match goal with H : has_char _ _ = false |- _ => rewrite H end.
  by rewrite Habs, Hparts, Hplain.
Qed.

(** [./name] is the entry [name]. *)
Lemma locate_dot_slash (os : string → place) (name : string) :
  plain name = true → locate os ("./" ++ name) = At name.
Proof.
  intros Hplain. pose proof Hplain as Hp. unfold plain in Hp.
  repeat (apply andb_prop in Hp as [Hp ?]).
  repeat match goal with
         | H : negb _ = true |- _ => apply negb_true_iff in H
         end.
  change ("./" ++ name) with (String "." (String "/" name)).
  unfold locate, parts, has_char in *. simpl.
  repeat match goal with H : existsb _ _ = false |- _ => rewrite H end.
  rewrite (split_slash_plain name) by done. simpl.
  repeat match goal with H : String.eqb _ _ = false |- _ => rewrite H end.
  simpl. by rewrite Hplain.
Qed.

End Paths.

(** ** The price pipeline: one iteration *)

Section PriceStep.

Import Prices.

Lemma step_seen (w : world) (st : state) (code ticker src_code : string) :
  seen_tickers st !! ticker = Some src_code →
  step w st (code, ticker) = reuse w st code ticker src_code.
Proof. intros H. unfold step. by rewrite H. Qed.

Lemma step_unseen (w : world) (st : state) (code ticker : string) :
  seen_tickers st !! ticker = None →
  step w st (code, ticker) = Ok (fetch w st code ticker).
Proof. intros H. unfold step. by rewrite H. Qed.

Lemma open_w_ok (p : place) (out : string) : open_w p = Ok out ↔ p = At out.
Proof. destruct p; simpl; split; congruence. Qed.

(** The cases of [reuse] that do not raise. *)
Lemma reuse_ok (w : world) (st st' : state) (code ticker src_code : string) :
  reuse w st code ticker src_code = Ok st' →
  (exists_at (out_dir st) (out_path w src_code) = Ok None ∧ st' = st) ∨
  ∃ d out,
    exists_at (out_dir st) (out_path w src_code) = Ok (Some (FJson (PDict d))) ∧
    out_path w code = At out ∧
    st' = {| out_dir := <[out := FJson (PDict (dict_set "code" (PStr code) d))]>
                          (out_dir st);
             price_index :=
               dict_set code
                 (index_entry ticker
                    (dict_get "days" (PInt 0)
                       (dict_set "code" (PStr code) d)))
                 (price_index st);
             success_count := S (success_count st);
             error_count := error_count st;
             seen_tickers := seen_tickers st;
             calls := calls st;
             ticks := ticks st |}.
Proof.
  unfold reuse.
  destruct (exists_at (out_dir st) (out_path w src_code)) as [[[v|]|]|e];
    simpl; try discriminate.
  - destruct v; simpl; try discriminate.
    destruct (out_path w code) as [out|e|e]; simpl; try discriminate.
    intros [= <-]. right. eauto.
  - intros [= <-]. by left.
Qed.

(** The three ways [fetch] ends. *)
Lemma fetch_cases (w : world) (st : state) (code ticker : string) :
  let asked :=
    {| out_dir := out_dir st; price_index := price_index st;
       success_count := success_count st; error_count := error_count st;
       seen_tickers := <[ticker := code]> (seen_tickers st);
       calls := (calls st ++ [ticker])%list; ticks := ticks st |} in
  (fetch w st code ticker = asked ∧ history w (calls st) ticker = Ok []) ∨
  (fetch w st code ticker =
     {| out_dir := out_dir st; price_index := price_index st;
        success_count := success_count st;
        error_count := S (error_count st);
        seen_tickers := <[ticker := code]> (seen_tickers st);
        calls := (calls st ++ [ticker])%list; ticks := ticks st |} ∧
   ((∃ e, history w (calls st) ticker = Raise e) ∨
    (∃ h e, history w (calls st) ticker = Ok h ∧ normalize h = Raise e) ∨
    (∃ h prices e,
       history w (calls st) ticker = Ok h ∧ h ≠ [] ∧
       normalize h = Ok prices ∧ open_w (out_path w code) = Raise e))) ∨
  (∃ h prices out,
     history w (calls st) ticker = Ok h ∧ h ≠ [] ∧ normalize h = Ok prices ∧
     out_path w code = At out ∧
     fetch w st code ticker = store w asked out code ticker prices).
Proof.
  intros asked. unfold fetch. fold asked.
  destruct (history w (calls st) ticker) as [[|item h]|e]; simpl.
  - by left.
  - destruct (normalize (item :: h)) as [prices|e] eqn:E; simpl.
    + destruct (open_w (out_path w code)) as [out|e] eqn:Eo; simpl.
      * apply open_w_ok in Eo. right. right.
        exists (item :: h), prices, out. by rewrite E.
      * right. left. split; [done|]. right. right.
        exists (item :: h), prices, e. by rewrite E.
    + right. left. split; [done|]. right. left. eauto.
  - right. left. split; [done|]. left. eauto.
Qed.

End PriceStep.

(** Case analysis on how the fetch of [ticker] under [code] ended,
    rewriting the state it left. *)
Ltac fetch_ended w st code ticker :=
  destruct (fetch_cases w st code ticker)
    as [[-> _]|[[-> _]|(? & ? & ? & _ & _ & _ & ? & ->)]]; simpl.

Section PriceFrame.

Import Prices.

(** What one iteration leaves alone and what it may change. *)
Lemma step_frame (w : world) (st st' : state) (code ticker : string) :
  step w st (code, ticker) = Ok st' →
  (∀ p, out_path w code ≠ At p → out_dir st' !! p = out_dir st !! p) ∧
  (∀ c, c ≠ code →
        dict_lookup c (price_index st') = dict_lookup c (price_index st)) ∧
  (∀ t c, seen_tickers st !! t = Some c → seen_tickers st' !! t = Some c) ∧
  (∀ t c, seen_tickers st' !! t = Some c →
          seen_tickers st !! t = Some c ∨ (t = ticker ∧ c = code)) ∧
  (∀ t, t ∈ calls st → t ∈ calls st') ∧
  (calls_ok st → calls_ok st').
Proof.
  unfold step.
  destruct (seen_tickers st !! ticker) as [src_code|] eqn:Hseen.
  - intros [[_ ->]|(d & out & _ & Hout & ->)]%reuse_ok; simpl.
    + repeat split; auto; apply H.
    + repeat split; auto; try apply H.
      * intros p Hp. rewrite lookup_insert_ne; [done|]. congruence.
      * intros c Hc. by rewrite dict_lookup_set_ne.
  - intros [= <-].
    assert (Hfield :
      out_dir (fetch w st code ticker) = out_dir st ∧
      price_index (fetch w st code ticker) = price_index st
      ∨ ∃ out a i, out_path w code = At out ∧
                   out_dir (fetch w st code ticker)
                     = <[out := a]> (out_dir st) ∧
                   price_index (fetch w st code ticker)
                     = dict_set code i (price_index st)).
    { fetch_ended w st code ticker; eauto 10. }
    assert (Hseen' : seen_tickers (fetch w st code ticker)
                     = <[ticker := code]> (seen_tickers st)).
    { fetch_ended w st code ticker; done. }
    assert (Hcalls : calls (fetch w st code ticker)
                     = (calls st ++ [ticker])%list).
    { fetch_ended w st code ticker; done. }
    split; [|split; [|split; [|split; [|split]]]].
    + intros p Hp. destruct Hfield as [[-> _]|(out & a & i & Hout & -> & _)];
        [done|].
      rewrite lookup_insert_ne; [done|]. congruence.
    + intros c Hc. destruct Hfield as [[_ ->]|(out & a & i & _ & _ & ->)];
        [done|].
      by rewrite dict_lookup_set_ne.
    + intros t c Ht. rewrite Hseen'.
      rewrite lookup_insert_ne; [done|]. intros ->. congruence.
    + intros t c. rewrite Hseen'.
      destruct (decide (ticker = t)) as [->|Hne].
      * rewrite lookup_insert_eq. intros [= ->]. by right.
      * rewrite lookup_insert_ne by done. by left.
    + intros t Ht. rewrite Hcalls. apply elem_of_app. by left.
    + intros [Hnd Hin]. split.
      * rewrite Hcalls. apply NoDup_app. split; [done|]. split.
        -- intros t Ht ->%list_elem_of_singleton.
           destruct (Hin _ Ht) as [c Hc]. congruence.
        -- apply NoDup_singleton.
      * intros t. rewrite Hcalls, Hseen'.
        intros [Ht| ->%list_elem_of_singleton]%elem_of_app.
        -- destruct (decide (ticker = t)) as [->|Hne].
           ++ rewrite lookup_insert_eq. eauto.
           ++ rewrite lookup_insert_ne by done. auto.
        -- rewrite lookup_insert_eq. eauto.
Qed.

End PriceFrame.

(** ** The price pipeline: the loop *)

Section PriceLoop.

Import Prices.

Lemma loop_app (w : world) (l1 l2 : list (string * string)) (st st' : state) :
  loop w (l1 ++ l2)%list st = Ok st' →
  ∃ st1, loop w l1 st = Ok st1 ∧ loop w l2 st1 = Ok st'.
Proof.
  unfold loop. rewrite for_loop_app.
  destruct (for_loop (step w) l1 st) as [st1|e]; [eauto|discriminate].
Qed.

Lemma loop_cons (w : world) (item : string * string)
    (l : list (string * string)) (st st' : state) :
  loop w (item :: l) st = Ok st' →
  ∃ st1, step w st item = Ok st1 ∧ loop w l st1 = Ok st'.
Proof.
  unfold loop. simpl.
  destruct (step w st item) as [st1|e]; [eauto|discriminate].
Qed.

Lemma loop_frame (w : world) (l : list (string * string)) (st st' : state) :
  loop w l st = Ok st' →
  (∀ p, (∀ c, c ∈ l.*1 → out_path w c ≠ At p) →
        out_dir st' !! p = out_dir st !! p) ∧
  (∀ c, c ∉ l.*1 →
        dict_lookup c (price_index st') = dict_lookup c (price_index st)) ∧
  (∀ t c, seen_tickers st !! t = Some c → seen_tickers st' !! t = Some c) ∧
  (∀ t c, seen_tickers st' !! t = Some c →
          seen_tickers st !! t = Some c ∨ (c, t) ∈ l) ∧
  (∀ t, t ∈ calls st → t ∈ calls st') ∧
  (calls_ok st → calls_ok st').
Proof.
  revert st. induction l as [|[code ticker] l IH]; intros st.
  - intros [= <-]. repeat split; auto; apply H.
  - intros (st1 & Hstep & Hloop)%loop_cons.
    destruct (step_frame _ _ _ _ _ Hstep) as (F1 & F2 & F3 & F4 & F5 & F6).
    destruct (IH _ Hloop) as (L1 & L2 & L3 & L4 & L5 & L6).
    split; [|split; [|split; [|split; [|split]]]].
    + intros p Hp. rewrite L1, F1; [done| |].
      * apply Hp. rewrite fmap_cons. apply elem_of_cons. by left.
      * intros c Hc. apply Hp. rewrite fmap_cons. apply elem_of_cons.
        by right.
    + intros c [Hne Hc]%not_elem_of_cons. rewrite L2 by done. by apply F2.
    + auto.
    + intros t c [Ht|Ht]%L4.
      * destruct (F4 _ _ Ht) as [?|[-> ->]]; [by left|].
        right. apply elem_of_cons. by left.
      * right. apply elem_of_cons. by right.
    + auto.
    + auto.
Qed.

Lemma init_calls_ok (files : gmap string file) : calls_ok (init files).
Proof. split; [apply NoDup_nil_2|]. intros t Ht. by apply elem_of_nil in Ht. Qed.

(** Before the first code of a ticker, the ticker is not in the cache. *)
Lemma loop_unseen (w : world) (files : gmap string file)
    (l : list (string * string)) (st : state) (ticker : string) :
  loop w l (init files) = Ok st → ticker ∉ l.*2 →
  seen_tickers st !! ticker = None.
Proof.
  intros Hloop Hnot.
  destruct (loop_frame _ _ _ _ Hloop) as (_ & _ & _ & L4 & _).
  destruct (seen_tickers st !! ticker) as [c|] eqn:E; [|done].
  destruct (L4 _ _ E) as [Hinit|Hin]; [done|].
  exfalso. apply Hnot. apply list_elem_of_fmap. by exists (c, ticker).
Qed.

Lemma insert_sorted_perm (x : string * string) (l : list (string * string)) :
  insert_sorted x l ≡ₚ x :: l.
Proof.
  induction l as [|y l IH]; simpl; [done|].
  destruct (item_leb x y); [done|].
  rewrite IH. apply Permutation_swap.
Qed.

Lemma sorted_perm (l : list (string * string)) : sorted l ≡ₚ l.
Proof.
  induction l as [|x l IH]; simpl; [done|].
  by rewrite insert_sorted_perm, IH.
Qed.

Lemma sorted_codes (ticker_map : list (string * string)) :
  NoDup ticker_map.*1 → NoDup (sorted ticker_map).*1.
Proof. intros H. by rewrite sorted_perm. Qed.

Lemma main_ok (w : world) (files : gmap string file)
    (ticker_map : list (string * string)) (st : state) :
  main w files ticker_map = Ok st →
  ∃ st', loop w (sorted ticker_map) (init files) = Ok st' ∧
         st = write_index w st'.
Proof.
  unfold main.
  destruct (loop w (sorted ticker_map) (init files)) as [st'|e]; simpl;
    [|discriminate].
  intros [= <-]. eauto.
Qed.

Lemma invocations_once (st : state) (ticker : string) :
  calls_ok st → ticker ∈ calls st → invocations ticker st = 1%nat.
Proof.
  intros [Hnd _] Hin. unfold invocations.
  apply NoDup_ListNoDup in Hnd.
  apply (proj1 (NoDup_count_occ' string_dec (calls st)) Hnd).
  by apply list_elem_of_In.
Qed.

Lemma invocations_at_most_once (st : state) (ticker : string) :
  calls_ok st → (invocations ticker st ≤ 1)%nat.
Proof.
  intros [Hnd _]. unfold invocations.
  apply NoDup_ListNoDup in Hnd.
  by apply (proj1 (NoDup_count_occ string_dec (calls st))).
Qed.

End PriceLoop.

(** ** The price pipeline: deduplication *)

Section PriceDedup.

Import Prices.

(** C2: on a cache hit whose source artifact exists, when the file of
    the current code can be opened for writing, the document written
    there is the source document with [code] set to the current code:
    every other key keeps its value, an artifact of the fetch path
    keeps its ticker, days, prices and fetchedAt, and the provider is
    not asked. *)
Theorem clone_replaces_code_only
    (w : world) (st : state) (code ticker src_code src out : string)
    (d : pydict) :
  seen_tickers st !! ticker = Some src_code →
  out_path w src_code = At src →
  out_dir st !! src = Some (FJson (PDict d)) →
  out_path w code = At out →
  ∃ st',
    step w st (code, ticker) = Ok st' ∧
    out_dir st' !! out
      = Some (FJson (PDict (dict_set "code" (PStr code) d))) ∧
    dict_lookup "code" (dict_set "code" (PStr code) d) = Some (PStr code) ∧
    (∀ k, k ≠ "code" →
          dict_lookup k (dict_set "code" (PStr code) d) = dict_lookup k d) ∧
    (∀ t c prices fetchedAt,
       d = price_artifact t c prices fetchedAt →
       dict_set "code" (PStr code) d = price_artifact t code prices fetchedAt) ∧
    calls st' = calls st.
Proof.
  intros Hseen Hsrc Hfile Hout.
  rewrite (step_seen _ _ _ _ _ Hseen). unfold reuse.
  rewrite Hsrc, Hout. simpl. rewrite Hfile. simpl.
  eexists. split; [reflexivity|]. simpl.
  split; [apply lookup_insert_eq|].
  split; [apply dict_lookup_set_eq|].
  split; [intros k Hk; apply dict_lookup_set_ne; congruence|].
  split; [|done].
  intros t c prices fetchedAt ->. reflexivity.
Qed.

(** Code 0002 after code 0001 was fetched for the same ticker. *)
Lemma clone_replaces_code_only_witness :
  ∃ st',
    step provider_down after_0001 ("0002", "0001.HK") = Ok st' ∧
    out_dir st' !! "0002.json"
      = Some (FJson (PDict (dict_set "code" (PStr "0002") stale_artifact))) ∧
    dict_lookup "code" (dict_set "code" (PStr "0002") stale_artifact)
      = Some (PStr "0002") ∧
    (∀ k, k ≠ "code" →
          dict_lookup k (dict_set "code" (PStr "0002") stale_artifact)
          = dict_lookup k stale_artifact) ∧
    (∀ t c prices fetchedAt,
       stale_artifact = price_artifact t c prices fetchedAt →
       dict_set "code" (PStr "0002") stale_artifact
       = price_artifact t "0002" prices fetchedAt) ∧
    calls st' = calls after_0001.
Proof.
  apply (clone_replaces_code_only provider_down after_0001
           "0002" "0001.HK" "0001" "0001.json" "0002.json" stale_artifact);
    reflexivity.
Defined.




(** C3 (the code departs from the claim): when the provider is down the
    failure is counted and the run completes; when the file to clone
    holds no JSON, the exception of the reuse branch, which stands
    outside the [try] block, leaves [main]: no later symbol is
    processed and no index is written. *)
Theorem reuse_failure_leaves_main :
  observe (main provider_down ∅ dual_listing) "index.json"
    = Some (Some (FJson (PDict [ ("stocks", PDict []);
                                 ("fetchedAt", PStr "2024-03-28T18:00:00Z");
                                 ("totalStocks", PInt 0) ])),
            0%nat, 1%nat) ∧
  main provider_down corrupt_dir dual_listing = Raise JSONDecodeError.
Proof. split; vm_compute; reflexivity. Qed.

(** C10 (the code departs from the claim): the first fetch of the
    ticker raises and nothing is fetched for it in the run. With an
    empty output directory the later code sharing the ticker is
    skipped, as the claim says. With the file an earlier run left
    under the first code, line 41 finds that file, and the later code
    is not skipped: the old document is cloned under it and counted as
    a success. *)
Theorem stale_source_is_cloned :
  history provider_down [] "0001.HK" = Raise ProviderError ∧
  observe (main provider_down ∅ dual_listing) "0002.json"
    = Some (None, 0%nat, 1%nat) ∧
  observe (main provider_down stale_dir dual_listing) "0002.json"
    = Some (Some (FJson (PDict (dict_set "code" (PStr "0002") stale_artifact))),
            1%nat, 1%nat).
Proof. repeat split; vm_compute; reflexivity. Qed.

(** A ticker that was not seen is entered in the cache by the
    iteration that asks for it, whatever the provider answers. When
    that first fetch raised or returned no rows, and the file of the
    first code was not there when the run started and is not the
    artifact file of a code processed since, a later code sharing the
    ticker leaves the whole state as it is: nothing is written, no
    count changes, the provider is not asked. *)
Theorem later_code_without_source_is_skipped
    (w : world) (files : gmap string file)
    (ticker_map l1 l2 l3 : list (string * string))
    (c1 c2 t k1 : string) (st1 st3 : state) :
  sorted ticker_map = (l1 ++ (c1, t) :: l2 ++ (c2, t) :: l3)%list →
  t ∉ l1.*2 →
  out_path w c1 = At k1 →
  files !! k1 = None →
  (∀ c, c ∈ ((l1 ++ l2)%list).*1 → out_path w c ≠ At k1) →
  loop w l1 (init files) = Ok st1 →
  (history w (calls st1) t = Ok [] ∨ ∃ e, history w (calls st1) t = Raise e) →
  loop w (l1 ++ (c1, t) :: l2)%list (init files) = Ok st3 →
  seen_tickers st3 !! t = Some c1 ∧
  invocations t st3 = 1%nat ∧
  step w st3 (c2, t) = Ok st3.
Proof.
  intros Hsorted Hfirst Hk1 Hnofile Hfree Hl1 Hfail Hl13.
  pose proof (loop_frame _ _ _ _ Hl13) as (_ & _ & _ & _ & _ & Hcalls).
  specialize (Hcalls (init_calls_ok files)).
  apply loop_app in Hl13 as (st1' & Hl1' & Hrest).
  rewrite Hl1 in Hl1'. injection Hl1' as <-.
  apply loop_cons in Hrest as (st2 & Hstep1 & Hl2).
  pose proof (loop_unseen _ _ _ _ _ Hl1 Hfirst) as Hunseen.
  rewrite (step_unseen _ _ _ _ Hunseen) in Hstep1. injection Hstep1 as <-.
  destruct (loop_frame _ _ _ _ Hl1) as (P1 & _).
  destruct (loop_frame _ _ _ _ Hl2) as (Q1 & _ & Q3 & _ & Q5 & _).
  assert (Hst2 : out_dir (fetch w st1 c1 t) = out_dir st1 ∧
                 seen_tickers (fetch w st1 c1 t) !! t = Some c1 ∧
                 t ∈ calls (fetch w st1 c1 t)).
  { assert (Hin : t ∈ (calls st1 ++ [t])%list).
    { apply elem_of_app. right. by apply list_elem_of_singleton. }
    destruct (fetch_cases w st1 c1 t)
      as [[-> _]|[[-> _]|(h & prices & out & E & Hne & _)]]; simpl.
    - by rewrite lookup_insert_eq.
    - by rewrite lookup_insert_eq.
    - destruct Hfail as [E'|[e E']]; congruence. }
  destruct Hst2 as (Hdir2 & Hseen2 & Hcall2).
  split; [by apply Q3|]. split.
  { apply (invocations_once st3 t Hcalls). by apply Q5. }
  rewrite (step_seen _ _ _ _ c1 (Q3 _ _ Hseen2)).
  unfold reuse. rewrite Hk1. simpl.
  rewrite Q1, Hdir2, P1; [simpl; by rewrite Hnofile| |].
  - intros c Hc. apply Hfree. rewrite fmap_app. apply elem_of_app. by left.
  - intros c Hc. apply Hfree. rewrite fmap_app. apply elem_of_app. by right.
Qed.

(** The provider is down and the output directory starts empty: code
    0002 leaves the state that code 0001 left. *)
Lemma later_code_without_source_is_skipped_witness :
  seen_tickers (fetch provider_down (init ∅) "0001" "0001.HK") !! "0001.HK"
    = Some "0001" ∧
  invocations "0001.HK" (fetch provider_down (init ∅) "0001" "0001.HK")
    = 1%nat ∧
  step provider_down (fetch provider_down (init ∅) "0001" "0001.HK")
       ("0002", "0001.HK")
  = Ok (fetch provider_down (init ∅) "0001" "0001.HK").
Proof.
  apply (later_code_without_source_is_skipped provider_down ∅ dual_listing
           [] [] [] "0001" "0002" "0001.HK" "0001.json" (init ∅)).
  - reflexivity.
  - apply not_elem_of_nil.
  - reflexivity.
  - reflexivity.
  - intros c Hc. by apply elem_of_nil in Hc.
  - reflexivity.
  - right. by exists ProviderError.
  - reflexivity.
Defined.

End PriceDedup.

(** ** What an iteration writes *)

Section PriceEffects.

Import Prices.

(** What an iteration that ends normally does to the files, the index
    and the counts: nothing but, at most, one more error; or one
    document that carries its code, in the file its path denotes,
    listed in the index with the days that document reports, and one
    more success. *)
Lemma step_effect (w : world) (st st' : state) (code ticker : string) :
  step w st (code, ticker) = Ok st' →
  (out_dir st' = out_dir st ∧ price_index st' = price_index st ∧
   success_count st' = success_count st ∧
   (error_count st' = error_count st ∨
    error_count st' = S (error_count st))) ∨
  (∃ d out,
     out_path w code = At out ∧
     out_dir st' = <[out := FJson (PDict d)]> (out_dir st) ∧
     price_index st'
       = dict_set code (index_entry ticker (dict_get "days" (PInt 0) d))
                  (price_index st) ∧
     dict_lookup "code" d = Some (PStr code) ∧
     success_count st' = S (success_count st) ∧
     error_count st' = error_count st).
Proof.
  unfold step.
  destruct (seen_tickers st !! ticker) as [src_code|].
  - intros [[_ ->]|(d & out & _ & Hout & ->)]%reuse_ok; [left; auto|].
    right. exists (dict_set "code" (PStr code) d), out. simpl.
    repeat split; auto. apply dict_lookup_set_eq.
  - intros [= <-].
    destruct (fetch_cases w st code ticker)
      as [[-> _]|[[-> _]|(h & prices & out & _ & _ & _ & Hout & ->)]]; simpl;
      [left; auto|left; auto|].
    right. eexists _, out. repeat split; [done|reflexivity..].
Qed.



End PriceEffects.

Section NewsEffects.

Import News.

Lemma normalize_length (raw_news : pyval) (processed : list pyval) :
  normalize raw_news = Ok processed → (length processed ≤ 20)%nat.
Proof.
  unfold normalize. rewrite resolve_articles_spec.
  unfold mbind, res_bind.
  destruct (spec_article_sequence raw_news) as [| | | |s|l|]; simpl;
    try discriminate.
  - rewrite process_loop, flat_map_emitted_chars. intros [= <-]. simpl. lia.
  - rewrite process_loop. intros [= <-].
    etrans; [apply flat_map_emitted_length|]. apply firstn_le_length.
Qed.

(** What an iteration does: it asks the provider, and then either
    writes nothing (with, at most, one more error), or writes one
    artifact of 1 to 20 articles that carries its code, in the file
    its path denotes, listed in the index with that count, and counts
    one more success. *)
Lemma news_step_effect (w : world) (st : state) (code ticker : string) :
  calls (step w st (code, ticker)) = (calls st ++ [ticker])%list ∧
  ((out_dir (step w st (code, ticker)) = out_dir st ∧
    news_index (step w st (code, ticker)) = news_index st ∧
    success_count (step w st (code, ticker)) = success_count st ∧
    (error_count (step w st (code, ticker)) = error_count st ∨
     error_count (step w st (code, ticker)) = S (error_count st))) ∨
   (∃ out processed fetchedAt,
      out_path w code = At out ∧
      (1 ≤ length processed ≤ 20)%nat ∧
      out_dir (step w st (code, ticker))
        = <[out := FJson (news_artifact ticker code processed fetchedAt)]>
            (out_dir st) ∧
      news_index (step w st (code, ticker))
        = dict_set code
            (PDict [ ("ticker", PStr ticker);
                     ("count", PInt (Z.of_nat (length processed))) ])
            (news_index st) ∧
      success_count (step w st (code, ticker)) = S (success_count st) ∧
      error_count (step w st (code, ticker)) = error_count st)).
Proof.
  unfold step, try_except.
  destruct (stock_news w (calls st) ticker) as [raw|e]; simpl;
    [|split; [done|left; auto]].
  destruct (normalize raw) as [[|a processed]|e] eqn:En; simpl;
    [split; [done|left; auto]| |split; [done|left; auto]].
  destruct (out_path w code) as [out|e|e] eqn:Eo; simpl;
    [|split; [done|left; auto]..].
  split; [done|]. right. exists out, (a :: processed), (clock w (ticks st)).
  pose proof (normalize_length _ _ En). simpl in *.
  repeat split; auto; lia.
Qed.

Lemma news_step_frame (w : world) (st : state) (code ticker : string) :
  (∀ p, out_path w code ≠ At p →
        out_dir (step w st (code, ticker)) !! p = out_dir st !! p) ∧
  (∀ c, c ≠ code →
        dict_lookup c (news_index (step w st (code, ticker)))
        = dict_lookup c (news_index st)).
Proof.
  destruct (news_step_effect w st code ticker)
    as [_ [(-> & -> & _)|(out & pr & ts & Hout & _ & -> & -> & _)]]; [done|].
  split.
  - intros p Hp. rewrite lookup_insert_ne; [done|]. congruence.
  - intros c Hc. by rewrite dict_lookup_set_ne.
Qed.

Lemma news_loop_frame (w : world) (l : list (string * string)) (st : state) :
  (∀ p, (∀ c, c ∈ l.*1 → out_path w c ≠ At p) →
        out_dir (fold_left (step w) l st) !! p = out_dir st !! p) ∧
  (∀ c, c ∉ l.*1 →
        dict_lookup c (news_index (fold_left (step w) l st))
        = dict_lookup c (news_index st)).
Proof.
  revert st. induction l as [|[code ticker] l IH]; intros st; [done|].
  cbn [fold_left].
  destruct (IH (step w st (code, ticker))) as [L1 L2].
  destruct (news_step_frame w st code ticker) as [F1 F2].
  split.
  - intros p Hp. rewrite L1, F1; [done| |].
    + apply Hp. rewrite fmap_cons. apply elem_of_cons. by left.
    + intros c Hc. apply Hp. rewrite fmap_cons. apply elem_of_cons. by right.
  - intros c [Hne Hc]%not_elem_of_cons. rewrite L2 by done. by apply F2.
Qed.


End NewsEffects.

(** ** Empty results, in both pipelines *)

Section EmptyResults.





End EmptyResults.

(** * Further properties of the two scripts *)

(** ** The order of the loop *)

Section LoopOrder.

Lemma compare_lt_trans (a b c : string) :
  String.compare a b = Lt → String.compare b c = Lt → String.compare a c = Lt.
Proof.
  intros Hab Hbc. apply String_as_OT.cmp_lt.
  eapply String_as_OT.lt_trans; apply String_as_OT.cmp_lt; eassumption.
Qed.

Lemma compare_refl (a : string) : String.compare a a = Eq.
Proof. exact (proj2 (String_as_OT.cmp_eq a a) eq_refl). Qed.

Lemma string_leb_trans (a b c : string) :
  String.leb a b = true → String.leb b c = true → String.leb a c = true.
Proof.
  unfold String.leb.
  destruct (String.compare a b) eqn:Hab; try discriminate; intros _;
    destruct (String.compare b c) eqn:Hbc; try discriminate; intros _.
  - apply String.compare_eq_iff in Hab, Hbc. subst.
    by rewrite compare_refl.
  - apply String.compare_eq_iff in Hab. subst. by rewrite Hbc.
  - apply String.compare_eq_iff in Hbc. subst. by rewrite Hab.
  - by rewrite (compare_lt_trans _ _ _ Hab Hbc).
Qed.

Lemma item_le_trans (a b c : string * string) :
  item_le a b → item_le b c → item_le a c.
Proof.
  unfold item_le, item_leb.
  destruct (String.compare a.1 b.1) eqn:Hab; try discriminate;
    destruct (String.compare b.1 c.1) eqn:Hbc; try discriminate.
  - apply String.compare_eq_iff in Hab, Hbc. rewrite Hab, Hbc.
    rewrite compare_refl.
    apply string_leb_trans.
  - apply String.compare_eq_iff in Hab. rewrite Hab, Hbc. done.
  - apply String.compare_eq_iff in Hbc. rewrite <- Hbc, Hab. done.
  - rewrite (compare_lt_trans _ _ _ Hab Hbc). done.
Qed.

Lemma item_le_antisym (a b : string * string) :
  item_le a b → item_le b a → a = b.
Proof.
  unfold item_le, item_leb. rewrite (String.compare_antisym a.1 b.1).
  destruct (String.compare b.1 a.1) eqn:Hba; simpl; try discriminate.
  apply String.compare_eq_iff in Hba. intros H1 H2.
  destruct a, b; simpl in *. f_equal; [done|].
  by apply String.leb_antisym.
Qed.

Lemma item_le_total (a b : string * string) : item_le a b ∨ item_le b a.
Proof.
  unfold item_le, item_leb. rewrite (String.compare_antisym a.1 b.1).
  destruct (String.compare b.1 a.1) eqn:Hba; simpl; auto.
  destruct (String.leb_total a.2 b.2); auto.
Qed.

Lemma insert_sorted_Sorted (x : string * string) (l : list (string * string)) :
  Sorted item_le l → Sorted item_le (insert_sorted x l).
Proof.
  induction 1 as [|y l Hl IH Hhd]; simpl.
  - by repeat constructor.
  - destruct (item_leb x y) eqn:E.
    + constructor; [by constructor|]. by constructor.
    + constructor; [done|].
      assert (Hyx : item_le y x).
      { destruct (item_le_total x y) as [H|H]; [|done].
        unfold item_le in H. congruence. }
      destruct Hhd as [|z l' Hyz]; simpl.
      * by constructor.
      * destruct (item_leb x z); by constructor.
Qed.

Lemma sorted_Sorted (l : list (string * string)) : Sorted item_le (sorted l).
Proof.
  induction l as [|x l IH]; simpl; [constructor|].
  by apply insert_sorted_Sorted.
Qed.

End LoopOrder.

(** The listing order of the configuration does not matter, and the
    loop visits the symbols in ascending order of their codes. *)
Section ListingOrder.

Lemma sorted_unique (l l' : list (string * string)) :
  l ≡ₚ l' → sorted l = sorted l'.
Proof.
  intros Hperm.
  apply (@Sorted_unique _ item_le item_le_trans item_le_antisym);
    try apply sorted_Sorted.
  by rewrite !sorted_perm.
Qed.


(** Two configurations that list the same items in different orders
    give the same run, in both pipelines. *)
Theorem run_ignores_listing_order
    (wp : Prices.world) (wn : News.world) (files : gmap string file)
    (ticker_map ticker_map' : list (string * string)) :
  ticker_map ≡ₚ ticker_map' →
  Prices.main wp files ticker_map = Prices.main wp files ticker_map' ∧
  News.main wn files ticker_map = News.main wn files ticker_map'.
Proof.
  intros Hperm. unfold Prices.main, News.main.
  by rewrite (sorted_unique _ _ Hperm).
Qed.

Lemma run_ignores_listing_order_witness :
  Prices.main Prices.provider_up ∅ Prices.dual_listing
  = Prices.main Prices.provider_up ∅
      [("0001", "0001.HK"); ("0002", "0001.HK")] ∧
  News.main News.provider_no_news ∅ Prices.dual_listing
  = News.main News.provider_no_news ∅
      [("0001", "0001.HK"); ("0002", "0001.HK")].
Proof.
  apply run_ignores_listing_order. apply Permutation_swap.
Defined.

End ListingOrder.

(** ** The price pipeline: failures *)

Section PriceFailures.

Import Prices.

(** How an iteration changes the cache and the log of provider calls. *)
Lemma step_cache (w : world) (st st' : state) (code ticker : string) :
  step w st (code, ticker) = Ok st' →
  (is_Some (seen_tickers st !! ticker) ∧
   seen_tickers st' = seen_tickers st ∧ calls st' = calls st) ∨
  (seen_tickers st !! ticker = None ∧
   seen_tickers st' = <[ticker := code]> (seen_tickers st) ∧
   calls st' = (calls st ++ [ticker])%list).
Proof.
  unfold step.
  destruct (seen_tickers st !! ticker) as [src_code|] eqn:Hseen.
  - intros [[_ ->]|(d & out & _ & _ & ->)]%reuse_ok; left; eauto.
  - intros [= <-]. right. split; [done|].
    fetch_ended w st code ticker; done.
Qed.

(** A failure of the provider, or of the normalisation of what it
    returned, is caught: the iteration ends normally, the error count
    goes up by one, and the files, the index and the success count
    stay as they were; the ticker is in the cache all the same. *)
Theorem fetch_failure_is_counted
    (w : world) (st : state) (code ticker : string) :
  seen_tickers st !! ticker = None →
  (∃ e, history w (calls st) ticker = Raise e) ∨
  (∃ h e, history w (calls st) ticker = Ok h ∧ normalize h = Raise e) →
  ∃ st',
    step w st (code, ticker) = Ok st' ∧
    error_count st' = S (error_count st) ∧
    success_count st' = success_count st ∧
    out_dir st' = out_dir st ∧
    price_index st' = price_index st ∧
    seen_tickers st' !! ticker = Some code.
Proof.
  intros Hunseen Hfail.
  rewrite (step_unseen _ _ _ _ Hunseen). eexists. split; [reflexivity|].
  destruct (fetch_cases w st code ticker)
    as [[_ E]|[[-> _]|(h & prices & out & E & _ & En & _)]].
  - exfalso. destruct Hfail as [[e E']|(h & e & E' & En)]; [congruence|].
    assert (h = []) as -> by congruence. discriminate En.
  - simpl. by rewrite lookup_insert_eq.
  - exfalso. destruct Hfail as [[e E']|(h' & e & E' & En')]; congruence.
Qed.

Lemma fetch_failure_is_counted_witness :
  ∃ st',
    step provider_nan (init ∅) ("0001", "0001.HK") = Ok st' ∧
    error_count st' = S (error_count (init ∅)) ∧
    success_count st' = success_count (init ∅) ∧
    out_dir st' = out_dir (init ∅) ∧
    price_index st' = price_index (init ∅) ∧
    seen_tickers st' !! "0001.HK" = Some "0001".
Proof.
  apply (fetch_failure_is_counted provider_nan (init ∅) "0001" "0001.HK");
    [reflexivity|].
  right. by exists nan_volume_hist, ValueError.
Defined.

(** When an iteration raises. *)
Lemma step_raises (w : world) (st : state) (code ticker : string) (e : exn) :
  step w st (code, ticker) = Raise e ↔
  ∃ src_code,
    seen_tickers st !! ticker = Some src_code ∧
    (out_path w src_code = Refused e ∨
     ∃ k f,
       out_path w src_code = At k ∧ out_dir st !! k = Some f ∧
       ((f = FGarbage ∧ e = JSONDecodeError) ∨
        (∃ v, f = FJson v ∧ is_dict v = false ∧ e = TypeError) ∨
        (∃ d, f = FJson (PDict d) ∧ open_w (out_path w code) = Raise e))).
Proof.
  unfold step, reuse. split.
  - destruct (seen_tickers st !! ticker) as [src_code|]; [|discriminate].
    intros Hr. exists src_code. split; [done|]. revert Hr.
    destruct (out_path w src_code) as [k|e'|e']; simpl;
      [|discriminate|intros [= ->]; by left].
    destruct (out_dir st !! k) as [[v|]|] eqn:Hf; simpl; [| |discriminate].
    + intros Hr. right. exists k, (FJson v). split; [done|]. split; [done|].
      right. destruct v; simpl in Hr;
        try (injection Hr as <-; left; eexists; by repeat split).
      right. eexists. split; [done|].
      destruct (open_w (out_path w code)); simpl in Hr; [discriminate|].
      by injection Hr as ->.
    + intros [= <-]. right. exists k, FGarbage. auto.
  - intros (src_code & -> & [->|(k & f & -> & Hf & Hcase)]); [done|]. simpl.
    rewrite Hf. simpl.
    destruct Hcase as [[-> ->]|[(v & -> & Hv & ->)|(d & -> & ->)]];
      [done| |done].
    by destruct v.
Qed.

(** An iteration raises on a cache hit only, and there in exactly four
    situations: the system rejects the path of the code that fetched
    the ticker; or the file of that code is there and does not hold
    JSON ([JSONDecodeError]); or it holds a JSON value that is not an
    object ([TypeError]); or it holds an object and the file of the
    current code cannot be opened for writing. *)
Theorem step_raises_iff_reuse_fails
    (w : world) (st : state) (code ticker : string) (e : exn) :
  step w st (code, ticker) = Raise e ↔
  ∃ src_code,
    seen_tickers st !! ticker = Some src_code ∧
    (out_path w src_code = Refused e ∨
     ∃ k f,
       out_path w src_code = At k ∧ out_dir st !! k = Some f ∧
       ((f = FGarbage ∧ e = JSONDecodeError) ∨
        (∃ v, f = FJson v ∧ is_dict v = false ∧ e = TypeError) ∨
        (∃ d, f = FJson (PDict d) ∧ open_w (out_path w code) = Raise e))).
Proof. apply step_raises. Qed.

Lemma out_path_plain (w : world) (code : string) :
  plain_code code = true → out_path w code = At (path_of code).
Proof. apply locate_plain. Qed.

Lemma step_ok_objects (w : world) (st : state) (code ticker : string) :
  all_objects (out_dir st) →
  (∀ t c, seen_tickers st !! t = Some c → plain_code c = true) →
  plain_code code = true →
  ∃ st', step w st (code, ticker) = Ok st' ∧ all_objects (out_dir st') ∧
         (∀ t c, seen_tickers st' !! t = Some c → plain_code c = true).
Proof.
  intros Hall Hcache Hcode.
  destruct (step w st (code, ticker)) as [st'|e] eqn:Hstep.
  - exists st'. split; [done|]. split.
    + destruct (step_effect _ _ _ _ _ Hstep)
        as [(-> & _)|(d & out & _ & -> & _)]; [done|].
      by apply map_Forall_insert_2.
    + destruct (step_frame _ _ _ _ _ Hstep) as (_ & _ & _ & F4 & _).
      intros t c [Ht|[_ ->]]%F4; [by eapply Hcache|done].
  - exfalso.
    apply step_raises in Hstep as (src & Hsrc & Hcase).
    rewrite (out_path_plain w src) in Hcase by by eapply Hcache.
    rewrite (out_path_plain w code) in Hcase by done.
    destruct Hcase as [[=]|(k & f & [= <-] & Hf & Hbad)].
    specialize (Hall _ _ Hf). simpl in Hall.
    destruct Hbad as [[-> _]|[(v & -> & Hv & _)|(d & _ & [=])]]; [done|].
    by destruct v.
Qed.

Lemma loop_ok_objects (w : world) (l : list (string * string)) (st : state) :
  all_objects (out_dir st) →
  (∀ t c, seen_tickers st !! t = Some c → plain_code c = true) →
  Forall (λ c, plain_code c = true) l.*1 →
  ∃ st', loop w l st = Ok st' ∧ all_objects (out_dir st').
Proof.
  revert st. induction l as [|[code ticker] l IH]; intros st Hall Hcache Hl.
  - by exists st.
  - rewrite fmap_cons in Hl. apply Forall_cons in Hl as [Hcode Hl].
    destruct (step_ok_objects w st code ticker Hall Hcache Hcode)
      as (st1 & Hstep & Hall1 & Hcache1).
    destruct (IH st1 Hall1 Hcache1 Hl) as (st' & Hloop & Hall').
    exists st'. split; [|done].
    unfold loop in *. cbn [for_loop]. by rewrite Hstep.
Qed.

(** When every file found in the output directory holds a JSON object
    (an empty directory, or the artifacts and index of earlier runs)
    and every code makes an entry name as it stands, the run
    completes, whatever the provider does, and writes the index. *)
Theorem run_completes_on_json_objects
    (w : world) (files : gmap string file)
    (ticker_map : list (string * string)) :
  all_objects files →
  Forall (λ c, plain_code c = true) ticker_map.*1 →
  ∃ stf,
    main w files ticker_map = Ok stf ∧
    is_Some (out_dir stf !! "index.json") ∧
    all_objects (out_dir stf).
Proof.
  intros Hall Hplain.
  destruct (loop_ok_objects w (sorted ticker_map) (init files) Hall)
    as (stl & Hloop & Hall').
  { intros t c. simpl. by rewrite lookup_empty. }
  { by rewrite sorted_perm. }
  exists (write_index w stl). unfold main. rewrite Hloop. simpl.
  split; [done|]. split.
  - rewrite lookup_insert_eq. eauto.
  - by apply map_Forall_insert_2.
Qed.

Lemma run_completes_on_json_objects_witness :
  ∃ stf,
    main provider_down stale_dir dual_listing = Ok stf ∧
    is_Some (out_dir stf !! "index.json") ∧
    all_objects (out_dir stf).
Proof.
  apply run_completes_on_json_objects.
  - apply map_Forall_singleton. reflexivity.
  - repeat constructor.
Defined.

End PriceFailures.

(** ** The price pipeline: cache, provider calls and index *)

Section PriceAccounts.

Import Prices.

Lemma first_code_cons (t : string) (code ticker : string)
    (l : list (string * string)) :
  first_code t ((code, ticker) :: l)
  = if String.eqb ticker t then Some code else first_code t l.
Proof. unfold first_code. simpl. by destruct (String.eqb ticker t). Qed.

Lemma loop_first_code (w : world) (l : list (string * string))
    (st st' : state) (t : string) :
  loop w l st = Ok st' →
  seen_tickers st' !! t
  = match seen_tickers st !! t with
    | Some c => Some c
    | None => first_code t l
    end.
Proof.
  revert st. induction l as [|[code ticker] l IH]; intros st.
  - intros [= <-]. by destruct (seen_tickers st !! t).
  - intros (st1 & Hstep & Hloop)%loop_cons.
    rewrite (IH _ Hloop), first_code_cons.
    destruct (String.eqb ticker t) eqn:E.
    + apply String.eqb_eq in E as ->.
      destruct (step_cache _ _ _ _ _ Hstep) as [([c Hc] & -> & _)|(Hc & -> & _)].
      * by rewrite Hc.
      * by rewrite lookup_insert_eq, Hc.
    + apply String.eqb_neq in E.
      destruct (step_cache _ _ _ _ _ Hstep) as [(_ & -> & _)|(_ & -> & _)].
      * done.
      * by rewrite lookup_insert_ne.
Qed.

(** At the end of a run the cache maps every ticker to the first code,
    in loop order, that is configured for it, and holds no other
    ticker. *)
Theorem cache_holds_first_code
    (w : world) (files : gmap string file)
    (ticker_map : list (string * string)) (stf : state) (t : string) :
  main w files ticker_map = Ok stf →
  seen_tickers stf !! t = first_code t (sorted ticker_map).
Proof.
  intros (stl & Hloop & ->)%main_ok. simpl.
  by rewrite (loop_first_code _ _ _ _ t Hloop).
Qed.

Lemma cache_holds_first_code_witness :
  seen_tickers (write_index provider_down
                  (fetch provider_down (init ∅) "0001" "0001.HK"))
    !! "0001.HK"
  = first_code "0001.HK" (sorted dual_listing).
Proof.
  apply (cache_holds_first_code provider_down ∅ dual_listing).
  reflexivity.
Defined.

Lemma loop_calls (w : world) (l : list (string * string)) (st st' : state) :
  loop w l st = Ok st' →
  (∀ t, t ∈ calls st ↔ is_Some (seen_tickers st !! t)) →
  (∀ t, t ∈ calls st' ↔ t ∈ calls st ∨ t ∈ l.*2) ∧
  (∀ t, t ∈ calls st' ↔ is_Some (seen_tickers st' !! t)).
Proof.
  revert st. induction l as [|[code ticker] l IH]; intros st.
  - intros [= <-] Hinv. split; [|done]. intros t. split; [by left|].
    intros [?|[]%elem_of_nil]. done.
  - intros (st1 & Hstep & Hloop)%loop_cons Hinv.
    assert (Hinv1 : ∀ t, t ∈ calls st1 ↔ is_Some (seen_tickers st1 !! t)).
    { intros t.
      destruct (step_cache _ _ _ _ _ Hstep) as [(_ & -> & ->)|(Hc & -> & ->)];
        [apply Hinv|].
      rewrite elem_of_app, list_elem_of_singleton, Hinv.
      destruct (decide (ticker = t)) as [->|Hne].
      - rewrite lookup_insert_eq. split; eauto.
      - rewrite lookup_insert_ne by done. split; [|by left].
        intros [?|?]; [done|congruence]. }
    destruct (IH _ Hloop Hinv1) as [IH1 IH2]. split; [|done].
    intros t. rewrite IH1, fmap_cons, elem_of_cons. simpl.
    destruct (step_cache _ _ _ _ _ Hstep) as [(Hc & _ & ->)|(_ & _ & ->)].
    + split; [tauto|]. intros [?|[->|?]]; auto. left. by apply Hinv.
    + rewrite elem_of_app, list_elem_of_singleton. tauto.
Qed.

(** In a run that completes, the provider is asked exactly once for
    every ticker of the configuration, however many codes map to it,
    and never for any other ticker. *)
Theorem every_ticker_fetched_once
    (w : world) (files : gmap string file)
    (ticker_map : list (string * string)) (stf : state) :
  main w files ticker_map = Ok stf →
  (∀ t, t ∈ ticker_map.*2 → invocations t stf = 1%nat) ∧
  (∀ t, t ∉ ticker_map.*2 → invocations t stf = 0%nat).
Proof.
  intros (stl & Hloop & ->)%main_ok.
  destruct (loop_frame _ _ _ _ Hloop) as (_ & _ & _ & _ & _ & Hok).
  specialize (Hok (init_calls_ok files)).
  destruct (loop_calls _ _ _ _ Hloop) as [Hcalls _].
  { intros t. simpl. rewrite lookup_empty. split.
    - intros []%elem_of_nil.
    - intros [? [=]]. }
  assert (Hmem : ∀ t, t ∈ calls stl ↔ t ∈ ticker_map.*2).
  { intros t. rewrite Hcalls. simpl. rewrite sorted_perm.
    split; [|by right]. intros [[]%elem_of_nil|?]. done. }
  split; intros t Ht.
  - apply (invocations_once stl t Hok). by apply Hmem.
  - unfold invocations. simpl. apply count_occ_not_In.
    rewrite <- list_elem_of_In. by rewrite Hmem.
Qed.

Lemma every_ticker_fetched_once_witness :
  ∃ stf,
    main provider_partial ∅ three_listing = Ok stf ∧
    (∀ t, t ∈ three_listing.*2 → invocations t stf = 1%nat) ∧
    (∀ t, t ∉ three_listing.*2 → invocations t stf = 0%nat).
Proof.
  destruct (main provider_partial ∅ three_listing) as [stf|e] eqn:E;
    [|vm_compute in E; discriminate].
  exists stf. split; [done|].
  by apply (every_ticker_fetched_once provider_partial ∅ three_listing).
Defined.

Lemma dict_set_fresh_length (k : string) (v : pyval) (d : pydict) :
  dict_lookup k d = None → length (dict_set k v d) = S (length d).
Proof.
  induction d as [|[k' v'] d IH]; simpl; [done|].
  destruct (String.eqb k k'); [discriminate|].
  intros H. simpl. by rewrite IH.
Qed.

Lemma loop_counts (w : world) (l : list (string * string)) (st st' : state) :
  loop w l st = Ok st' →
  NoDup l.*1 →
  (∀ c, c ∈ l.*1 → dict_lookup c (price_index st) = None) →
  (length (price_index st') + success_count st
   = length (price_index st) + success_count st')%nat ∧
  (success_count st' + error_count st'
   ≤ success_count st + error_count st + length l)%nat.
Proof.
  revert st. induction l as [|[code ticker] l IH]; intros st.
  - intros [= <-] _ _. simpl. lia.
  - intros (st1 & Hstep & Hloop)%loop_cons [Hc Hnd]%NoDup_cons Hfresh.
    destruct (step_frame _ _ _ _ _ Hstep) as (_ & F2 & _).
    destruct (IH _ Hloop Hnd) as [IH1 IH2].
    { intros c Hin. rewrite F2.
      - apply Hfresh. apply elem_of_cons. by right.
      - intros ->. done. }
    assert (Hcode : dict_lookup code (price_index st) = None).
    { apply Hfresh. apply elem_of_cons. by left. }
    destruct (step_effect _ _ _ _ _ Hstep)
      as [(_ & Hi & Hs & He)|(d & out & _ & _ & Hi & _ & Hs & He)].
    + rewrite Hi in IH1. simpl. lia.
    + rewrite Hi, dict_set_fresh_length in IH1 by done. simpl. lia.
Qed.

(** With distinct codes, the [totalStocks] written in the index is the
    number of entries of its [stocks], every listed code is a
    configured one, and successes and errors together do not exceed
    the number of symbols. *)
Theorem price_index_totals
    (w : world) (files : gmap string file)
    (ticker_map : list (string * string)) (stf : state) :
  NoDup ticker_map.*1 →
  main w files ticker_map = Ok stf →
  ∃ stocks fetchedAt,
    out_dir stf !! "index.json"
      = Some (FJson (PDict [ ("stocks", PDict stocks);
                             ("fetchedAt", PStr fetchedAt);
                             ("totalStocks", PInt (Z.of_nat (length stocks))) ])) ∧
    (∀ c e, dict_lookup c stocks = Some e → c ∈ ticker_map.*1) ∧
    length stocks = success_count stf ∧
    (success_count stf + error_count stf ≤ length ticker_map)%nat.
Proof.
  intros Hnd (stl & Hloop & ->)%main_ok.
  destruct (loop_counts _ _ _ _ Hloop (sorted_codes _ Hnd)) as [H1 H2];
    [done|]. simpl in H1, H2.
  assert (Hlen : length (price_index stl) = success_count stl) by lia.
  exists (price_index stl), (clock w (ticks stl)). simpl.
  rewrite lookup_insert_eq, Hlen. split; [done|]. split; [|split; [done|]].
  - intros c e Hc.
    destruct (decide (c ∈ (sorted ticker_map).*1)) as [Hin|Hout].
    + by rewrite sorted_perm in Hin.
    + destruct (loop_frame _ _ _ _ Hloop) as (_ & L2 & _).
      rewrite (L2 _ Hout) in Hc. discriminate.
  - by rewrite (Permutation_length (sorted_perm ticker_map)) in H2.
Qed.

Lemma price_index_totals_witness :
  ∃ stf stocks fetchedAt,
    main provider_partial ∅ three_listing = Ok stf ∧
    out_dir stf !! "index.json"
      = Some (FJson (PDict [ ("stocks", PDict stocks);
                             ("fetchedAt", PStr fetchedAt);
                             ("totalStocks", PInt (Z.of_nat (length stocks))) ])) ∧
    (∀ c e, dict_lookup c stocks = Some e → c ∈ three_listing.*1) ∧
    length stocks = success_count stf ∧
    (success_count stf + error_count stf ≤ length three_listing)%nat.
Proof.
  destruct (main provider_partial ∅ three_listing) as [stf|e] eqn:E;
    [|vm_compute in E; discriminate].
  destruct (price_index_totals provider_partial ∅ three_listing stf)
    as (stocks & fetchedAt & H); [|done|].
  - compute_done.
  - by exists stf, stocks, fetchedAt.
Defined.

Lemma step_index_backed (w : world) (st st' : state) (code ticker : string) :
  step w st (code, ticker) = Ok st' →
  plain_code code = true →
  index_backed st → index_backed st'.
Proof.
  intros Hstep Hplain Hinv.
  destruct (step_effect _ _ _ _ _ Hstep)
    as [(Ho & Hi & _)|(d & out & Hout & Ho & Hi & Hcode & _)]; intros c e.
  - rewrite Ho, Hi. apply Hinv.
  - rewrite (out_path_plain w code Hplain) in Hout. injection Hout as <-.
    rewrite Ho, Hi. destruct (decide (code = c)) as [->|Hne].
    + rewrite dict_lookup_set_eq, lookup_insert_eq. intros [= <-]. eauto.
    + rewrite dict_lookup_set_ne by done.
      rewrite lookup_insert_ne; [apply Hinv|].
      intros E. apply Hne. by apply path_of_inj.
Qed.

Lemma loop_index_backed (w : world) (l : list (string * string))
    (st st' : state) :
  loop w l st = Ok st' →
  Forall (λ c, plain_code c = true) l.*1 →
  index_backed st → index_backed st'.
Proof.
  revert st. induction l as [|[code ticker] l IH]; intros st.
  - by intros [= <-].
  - intros (st1 & Hstep & Hloop)%loop_cons Hl Hinv.
    rewrite fmap_cons in Hl. apply Forall_cons in Hl as [Hcode Hl].
    eapply IH; [done|done|]. by eapply step_index_backed.
Qed.

(** At the end of a run whose codes all make an entry name as they
    stand, every code listed in the index, other than a code named
    [index], has its artifact in the output directory under that
    name: a JSON object whose [code] field is that code and whose
    [days] field is the number the index gives. *)
Theorem listed_codes_have_artifacts
    (w : world) (files : gmap string file)
    (ticker_map : list (string * string)) (stf : state) :
  Forall (λ c, plain_code c = true) ticker_map.*1 →
  main w files ticker_map = Ok stf →
  ∃ stocks fetchedAt total,
    out_dir stf !! "index.json"
      = Some (FJson (PDict [ ("stocks", PDict stocks);
                             ("fetchedAt", fetchedAt);
                             ("totalStocks", total) ])) ∧
    ∀ c e,
      dict_lookup c stocks = Some e →
      c ≠ "index" →
      ∃ d t,
        out_dir stf !! path_of c = Some (FJson (PDict d)) ∧
        dict_lookup "code" d = Some (PStr c) ∧
        e = index_entry t (dict_get "days" (PInt 0) d).
Proof.
  intros Hplain (stl & Hloop & ->)%main_ok.
  assert (Hinv : index_backed stl).
  { eapply loop_index_backed; [done|by rewrite sorted_perm|].
    intros c e. discriminate. }
  eexists _, _, _. simpl. rewrite lookup_insert_eq. split; [reflexivity|].
  intros c e Hc Hne.
  rewrite lookup_insert_ne by by apply path_of_index.
  by apply Hinv.
Qed.

Lemma listed_codes_have_artifacts_witness :
  ∃ stf stocks fetchedAt total,
    main provider_down stale_dir dual_listing = Ok stf ∧
    out_dir stf !! "index.json"
      = Some (FJson (PDict [ ("stocks", PDict stocks);
                             ("fetchedAt", fetchedAt);
                             ("totalStocks", total) ])) ∧
    ∀ c e,
      dict_lookup c stocks = Some e →
      c ≠ "index" →
      ∃ d t,
        out_dir stf !! path_of c = Some (FJson (PDict d)) ∧
        dict_lookup "code" d = Some (PStr c) ∧
        e = index_entry t (dict_get "days" (PInt 0) d).
Proof.
  destruct (main provider_down stale_dir dual_listing) as [stf|e] eqn:E;
    [|vm_compute in E; discriminate].
  destruct (listed_codes_have_artifacts provider_down stale_dir
              dual_listing stf) as (stocks & fetchedAt & total & H);
    [repeat constructor|done|].
  by exists stf, stocks, fetchedAt, total.
Defined.

(** A run leaves every file as it found it, except [index.json] and
    the files that the artifact paths of the configured codes denote. *)
Theorem price_run_keeps_other_files
    (w : world) (files : gmap string file)
    (ticker_map : list (string * string)) (stf : state) (p : string) :
  main w files ticker_map = Ok stf →
  p ≠ "index.json" →
  (∀ c, c ∈ ticker_map.*1 → out_path w c ≠ At p) →
  out_dir stf !! p = files !! p.
Proof.
  intros (stl & Hloop & ->)%main_ok Hindex Hp. simpl.
  rewrite lookup_insert_ne by done.
  destruct (loop_frame _ _ _ _ Hloop) as (L1 & _).
  rewrite L1; [done|].
  intros c Hc. apply Hp. by rewrite sorted_perm in Hc.
Qed.

Lemma price_run_keeps_other_files_witness :
  out_dir (write_index provider_down
             (fetch provider_down (init stale_dir) "0700" "0700.HK"))
    !! "0001.json"
  = stale_dir !! "0001.json".
Proof.
  apply (price_run_keeps_other_files provider_down stale_dir
           [("0700", "0700.HK")]).
  - reflexivity.
  - discriminate.
  - intros c ->%list_elem_of_singleton. discriminate.
Defined.

End PriceAccounts.

(** ** The news pipeline *)

Section NewsAccounts.

Import News.

(** A failure of the provider, or of the normalisation of its answer,
    is caught: the error count goes up by one and the files, the index
    and the success count stay as they were. *)
Theorem news_failure_is_counted
    (w : world) (st : state) (code ticker : string) :
  (∃ e, stock_news w (calls st) ticker = Raise e) ∨
  (∃ raw_news e, stock_news w (calls st) ticker = Ok raw_news ∧
                 normalize raw_news = Raise e) →
  error_count (step w st (code, ticker)) = S (error_count st) ∧
  success_count (step w st (code, ticker)) = success_count st ∧
  out_dir (step w st (code, ticker)) = out_dir st ∧
  news_index (step w st (code, ticker)) = news_index st.
Proof.
  unfold step, try_except.
  intros [[e ->]|(raw & e & -> & Hn)]; [done|].
  unfold mbind, res_bind. by rewrite Hn.
Qed.

Lemma news_failure_is_counted_witness :
  error_count (step provider_null_news (init ∅) ("0700", "0700.HK"))
    = S (error_count (init ∅)) ∧
  success_count (step provider_null_news (init ∅) ("0700", "0700.HK"))
    = success_count (init ∅) ∧
  out_dir (step provider_null_news (init ∅) ("0700", "0700.HK"))
    = out_dir (init ∅) ∧
  news_index (step provider_null_news (init ∅) ("0700", "0700.HK"))
    = news_index (init ∅).
Proof.
  apply (news_failure_is_counted provider_null_news (init ∅)
           "0700" "0700.HK").
  right. by exists (PDict [("news", PNone)]), TypeError.
Defined.

Lemma news_loop_calls (w : world) (l : list (string * string)) (st : state) :
  calls (fold_left (step w) l st) = (calls st ++ l.*2)%list.
Proof.
  revert st. induction l as [|[code ticker] l IH]; intros st.
  - by rewrite app_nil_r.
  - cbn [fold_left]. rewrite IH.
    destruct (news_step_effect w st code ticker) as [-> _].
    by rewrite <- app_assoc.
Qed.

(** The news pipeline asks the provider once for every symbol, in loop
    order: a ticker shared by several codes is asked for once per
    code. *)
Theorem news_asks_once_per_symbol
    (w : world) (files : gmap string file)
    (ticker_map : list (string * string)) :
  calls (main w files ticker_map) = (sorted ticker_map).*2 ∧
  length (calls (main w files ticker_map)) = length ticker_map.
Proof.
  assert (H : calls (main w files ticker_map) = (sorted ticker_map).*2).
  { unfold main. simpl. by rewrite news_loop_calls. }
  split; [done|].
  by rewrite H, length_fmap, (Permutation_length (sorted_perm ticker_map)).
Qed.

Lemma news_loop_counts (w : world) (l : list (string * string)) (st : state) :
  NoDup l.*1 →
  (∀ c, c ∈ l.*1 → dict_lookup c (news_index st) = None) →
  (length (news_index (fold_left (step w) l st)) + success_count st
   = length (news_index st) + success_count (fold_left (step w) l st))%nat ∧
  (success_count (fold_left (step w) l st)
   + error_count (fold_left (step w) l st)
   ≤ success_count st + error_count st + length l)%nat.
Proof.
  revert st. induction l as [|[code ticker] l IH]; intros st.
  - intros _ _. simpl. lia.
  - intros [Hc Hnd]%NoDup_cons Hfresh. cbn [fold_left].
    destruct (news_step_frame w st code ticker) as [_ F2].
    destruct (IH (step w st (code, ticker)) Hnd) as [IH1 IH2].
    { intros c Hin. rewrite F2.
      - apply Hfresh. apply elem_of_cons. by right.
      - intros ->. done. }
    assert (Hcode : dict_lookup code (news_index st) = None).
    { apply Hfresh. apply elem_of_cons. by left. }
    destruct (news_step_effect w st code ticker)
      as [_ [(_ & Hi & Hs & He)|(out & pr & ts & _ & _ & _ & Hi & Hs & He)]].
    + rewrite Hi in IH1.
      set (st1 := step w st (code, ticker)) in *. cbn [length]. lia.
    + rewrite Hi, dict_set_fresh_length in IH1 by done.
      set (st1 := step w st (code, ticker)) in *. cbn [length]. lia.
Qed.

(** With distinct codes, the [totalStocks] written in the news index is
    the number of entries of its [stocks], every listed code is a
    configured one, and successes and errors together do not exceed
    the number of symbols. *)
Theorem news_index_totals
    (w : world) (files : gmap string file)
    (ticker_map : list (string * string)) :
  NoDup ticker_map.*1 →
  ∃ stocks fetchedAt,
    out_dir (main w files ticker_map) !! "index.json"
      = Some (FJson (PDict [ ("stocks", PDict stocks);
                             ("fetchedAt", PStr fetchedAt);
                             ("totalStocks", PInt (Z.of_nat (length stocks))) ])) ∧
    (∀ c e, dict_lookup c stocks = Some e → c ∈ ticker_map.*1) ∧
    length stocks = success_count (main w files ticker_map) ∧
    (success_count (main w files ticker_map)
     + error_count (main w files ticker_map) ≤ length ticker_map)%nat.
Proof.
  intros Hnd. unfold main.
  destruct (news_loop_counts w (sorted ticker_map) (init files)
              (sorted_codes _ Hnd)) as [H1 H2]; [done|].
  set (stl := fold_left (step w) (sorted ticker_map) (init files)) in *.
  simpl in H1, H2.
  assert (Hlen : length (news_index stl) = success_count stl) by lia.
  exists (news_index stl), (clock w (ticks stl)). simpl.
  rewrite lookup_insert_eq, Hlen. split; [done|]. split; [|split; [done|]].
  - intros c e Hc.
    destruct (decide (c ∈ (sorted ticker_map).*1)) as [Hin|Hout].
    + by rewrite sorted_perm in Hin.
    + destruct (news_loop_frame w (sorted ticker_map) (init files))
        as [_ L2].
      fold stl in L2. rewrite (L2 _ Hout) in Hc. discriminate.
  - by rewrite (Permutation_length (sorted_perm ticker_map)) in H2.
Qed.

Lemma news_index_totals_witness :
  ∃ stocks fetchedAt,
    out_dir (main provider_one_article ∅ Prices.three_listing) !! "index.json"
      = Some (FJson (PDict [ ("stocks", PDict stocks);
                             ("fetchedAt", PStr fetchedAt);
                             ("totalStocks", PInt (Z.of_nat (length stocks))) ])) ∧
    (∀ c e, dict_lookup c stocks = Some e → c ∈ Prices.three_listing.*1) ∧
    length stocks
      = success_count (main provider_one_article ∅ Prices.three_listing) ∧
    (success_count (main provider_one_article ∅ Prices.three_listing)
     + error_count (main provider_one_article ∅ Prices.three_listing)
     ≤ length Prices.three_listing)%nat.
Proof. apply news_index_totals. compute_done. Defined.

Lemma news_out_path_plain (w : world) (code : string) :
  plain_code code = true → out_path w code = At (path_of code).
Proof. apply locate_plain. Qed.

Lemma news_step_index_backed (w : world) (st : state) (code ticker : string) :
  plain_code code = true →
  index_backed st → index_backed (step w st (code, ticker)).
Proof.
  intros Hplain Hinv.
  destruct (news_step_effect w st code ticker)
    as [_ [(Ho & Hi & _)|(out & pr & ts & Hout & Hlen & Ho & Hi & _)]];
    intros c e.
  - rewrite Ho, Hi. apply Hinv.
  - rewrite (news_out_path_plain w code Hplain) in Hout. injection Hout as <-.
    rewrite Ho, Hi. destruct (decide (code = c)) as [->|Hne].
    + rewrite dict_lookup_set_eq, lookup_insert_eq. intros [= <-].
      by exists ticker, pr, ts.
    + rewrite dict_lookup_set_ne by done.
      rewrite lookup_insert_ne; [apply Hinv|].
      intros E. apply Hne. by apply path_of_inj.
Qed.

Lemma news_loop_index_backed (w : world) (l : list (string * string))
    (st : state) :
  Forall (λ c, plain_code c = true) l.*1 →
  index_backed st → index_backed (fold_left (step w) l st).
Proof.
  revert st. induction l as [|[code ticker] l IH]; intros st Hl Hinv; [done|].
  rewrite fmap_cons in Hl. apply Forall_cons in Hl as [Hcode Hl].
  cbn [fold_left]. by apply IH, news_step_index_backed.
Qed.

(** At the end of a news run whose codes all make an entry name as
    they stand, every code listed in the index, other than a code
    named [index], has its artifact in the output directory under
    that name, with that code, the listed ticker, and between 1 and 20
    articles: as many as the index counts. *)
Theorem news_listed_codes_have_artifacts
    (w : world) (files : gmap string file)
    (ticker_map : list (string * string)) :
  Forall (λ c, plain_code c = true) ticker_map.*1 →
  ∃ stocks fetchedAt total,
    out_dir (main w files ticker_map) !! "index.json"
      = Some (FJson (PDict [ ("stocks", PDict stocks);
                             ("fetchedAt", fetchedAt);
                             ("totalStocks", total) ])) ∧
    ∀ c e,
      dict_lookup c stocks = Some e →
      c ≠ "index" →
      ∃ t processed published,
        out_dir (main w files ticker_map) !! path_of c
          = Some (FJson (news_artifact t c processed published)) ∧
        e = PDict [ ("ticker", PStr t);
                    ("count", PInt (Z.of_nat (length processed))) ] ∧
        (1 ≤ length processed ≤ 20)%nat.
Proof.
  intros Hplain. unfold main.
  set (stl := fold_left (step w) (sorted ticker_map) (init files)).
  assert (Hinv : index_backed stl).
  { apply news_loop_index_backed; [by rewrite sorted_perm|].
    intros c e. discriminate. }
  eexists _, _, _. simpl. rewrite lookup_insert_eq. split; [reflexivity|].
  intros c e Hc Hne.
  rewrite lookup_insert_ne by by apply path_of_index.
  by apply Hinv.
Qed.

Lemma news_listed_codes_have_artifacts_witness :
  ∃ stocks fetchedAt total,
    out_dir (main provider_one_article ∅ Prices.three_listing) !! "index.json"
      = Some (FJson (PDict [ ("stocks", PDict stocks);
                             ("fetchedAt", fetchedAt);
                             ("totalStocks", total) ])) ∧
    ∀ c e,
      dict_lookup c stocks = Some e →
      c ≠ "index" →
      ∃ t processed published,
        out_dir (main provider_one_article ∅ Prices.three_listing) !! path_of c
          = Some (FJson (news_artifact t c processed published)) ∧
        e = PDict [ ("ticker", PStr t);
                    ("count", PInt (Z.of_nat (length processed))) ] ∧
        (1 ≤ length processed ≤ 20)%nat.
Proof.
  apply news_listed_codes_have_artifacts. repeat constructor.
Defined.

(** A news run leaves every file as it found it, except [index.json]
    and the files that the artifact paths of the configured codes
    denote. *)
Theorem news_run_keeps_other_files
    (w : world) (files : gmap string file)
    (ticker_map : list (string * string)) (p : string) :
  p ≠ "index.json" →
  (∀ c, c ∈ ticker_map.*1 → out_path w c ≠ At p) →
  out_dir (main w files ticker_map) !! p = files !! p.
Proof.
  intros Hindex Hp. unfold main. simpl.
  rewrite lookup_insert_ne by done.
  destruct (news_loop_frame w (sorted ticker_map) (init files)) as [L1 _].
  rewrite L1; [done|].
  intros c Hc. apply Hp. by rewrite sorted_perm in Hc.
Qed.

Lemma news_run_keeps_other_files_witness :
  out_dir (main provider_one_article Prices.stale_dir [("0700", "0700.HK")])
    !! "0001.json"
  = Prices.stale_dir !! "0001.json".
Proof.
  apply news_run_keeps_other_files.
  - discriminate.
  - intros c ->%list_elem_of_singleton. discriminate.
Defined.

(** When the artifact of a symbol that has articles cannot be opened
    for writing, the exception is caught: the iteration counts one
    error, writes nothing and leaves the index and the success count
    as they were. *)
Theorem news_write_failure_is_counted
    (w : world) (st : state) (code ticker : string)
    (raw_news : pyval) (processed : list pyval) (e : exn) :
  stock_news w (calls st) ticker = Ok raw_news →
  normalize raw_news = Ok processed →
  processed ≠ [] →
  open_w (out_path w code) = Raise e →
  error_count (step w st (code, ticker)) = S (error_count st) ∧
  success_count (step w st (code, ticker)) = success_count st ∧
  out_dir (step w st (code, ticker)) = out_dir st ∧
  news_index (step w st (code, ticker)) = news_index st.
Proof.
  intros Hnews Hn Hne Hopen. unfold step, try_except.
  rewrite Hnews. unfold mbind, res_bind. rewrite Hn.
  destruct processed as [|a processed]; [done|]. simpl.
  by rewrite Hopen.
Qed.

(** A code that points into a sub-directory that is not there. *)
Lemma news_write_failure_is_counted_witness :
  error_count (step provider_one_article (init ∅) ("hk/0700", "0700.HK"))
    = S (error_count (init ∅)) ∧
  success_count (step provider_one_article (init ∅) ("hk/0700", "0700.HK"))
    = success_count (init ∅) ∧
  out_dir (step provider_one_article (init ∅) ("hk/0700", "0700.HK"))
    = out_dir (init ∅) ∧
  news_index (step provider_one_article (init ∅) ("hk/0700", "0700.HK"))
    = news_index (init ∅).
Proof.
  eapply (news_write_failure_is_counted provider_one_article (init ∅)
            "hk/0700" "0700.HK" _ _ OSError); [reflexivity..|done|reflexivity].
Defined.

End NewsAccounts.

(** ** The normalisers, further *)

Section Normalizers.

(** Entries after the twentieth are never looked at: two responses
    whose article lists agree on their first 20 entries normalise to
    the same result. *)
Theorem normalize_reads_first_20 (raw_news raw_news' : pyval)
    (l l' : list pyval) :
  News.resolve_articles raw_news = Ok (PList l) →
  News.resolve_articles raw_news' = Ok (PList l') →
  firstn 20 l = firstn 20 l' →
  News.normalize raw_news = News.normalize raw_news'.
Proof.
  intros Hl Hl' Hsame.
  rewrite resolve_articles_spec in Hl, Hl'.
  injection Hl as Hl. injection Hl' as Hl'.
  by rewrite (normalize_list _ _ Hl), (normalize_list _ _ Hl'), Hsame.
Qed.

Lemma normalize_reads_first_20_witness :
  News.normalize (News.long_feed [PDict [("title", PStr "Y")]])
  = News.normalize
      (PDict [("news", News.long_feed [PStr "stray"; PNone])]).
Proof.
  eapply normalize_reads_first_20; reflexivity.
Defined.

Lemma emitted_kept (article : pyval) :
  length (News.emitted article) = if News.kept article then 1%nat else 0%nat.
Proof.
  unfold News.emitted, News.process_article, News.kept, News.unwrap_content.
  destruct article as [| | | | | |d]; try done.
  unfold dict_get.
  destruct (dict_lookup "content" d) as [[| | | | | |content]|]; try done.
  - destruct (article_record_ok content) as [fields ->]. done.
  - destruct (article_record_ok d) as [fields ->]. done.
Qed.

Lemma flat_map_emitted_kept (l : list pyval) :
  length (flat_map News.emitted l) = length (List.filter News.kept l).
Proof.
  induction l as [|a l IH]; [done|]. simpl.
  rewrite length_app, emitted_kept, IH.
  by destruct (News.kept a).
Qed.

(** One article comes out for each of the first 20 entries that is a
    record without a [content] key, or a record whose [content] is a
    record; an entry that is not a record, or whose [content] is there
    and is not a record, is passed over. *)
Theorem articles_are_the_record_entries (raw_news : pyval) (l : list pyval) :
  News.resolve_articles raw_news = Ok (PList l) →
  ∃ processed,
    News.normalize raw_news = Ok processed ∧
    length processed = length (List.filter News.kept (firstn 20 l)).
Proof.
  intros Hl. rewrite resolve_articles_spec in Hl. injection Hl as Hl.
  eexists. split; [by apply normalize_list|].
  apply flat_map_emitted_kept.
Qed.

Lemma articles_are_the_record_entries_witness :
  ∃ processed,
    News.normalize
      (PList [ PDict [("content", PStr "not a record"); ("title", PStr "A")];
               PStr "stray";
               PDict [("title", PStr "B")] ])
    = Ok processed ∧
    length processed
    = length (List.filter News.kept
                (firstn 20
                   [ PDict [("content", PStr "not a record");
                            ("title", PStr "A")];
                     PStr "stray";
                     PDict [("title", PStr "B")] ])).
Proof. by apply articles_are_the_record_entries. Defined.

Lemma publisher_of_chain (content : pydict) :
  News.publisher_of content = Ok (News.publisher_chain content).
Proof.
  unfold News.publisher_of, News.publisher_chain, dict_get_none, dict_get.
  by destruct (dict_lookup "provider" content) as [[]|].
Qed.

Lemma link_of_chain (content : pydict) :
  News.link_of content = Ok (News.link_chain content).
Proof.
  unfold News.link_of, News.link_chain, dict_get_none, dict_get.
  destruct (dict_lookup "canonicalUrl" content) as [[]|]; simpl;
    by destruct (dict_lookup "link" content).
Qed.

Lemma thumbnail_of_chain (content : pydict) :
  News.thumbnail_of content = Ok (News.thumbnail_chain content).
Proof.
  unfold News.thumbnail_of, News.thumbnail_chain, dict_get_none, dict_get.
  by destruct (dict_lookup "thumbnail" content) as [[]|].
Qed.

(** The fields of an article other than [relatedTickers]: the title as
    it is; a [provider] record decides the publisher, a [canonicalUrl]
    record the link and a [thumbnail] record the thumbnail, even when
    the record lacks the sub-field; without such a record the flat
    [publisher], and [link] before [url], are used, and the thumbnail
    is empty; [pubDate] comes before [providerPublishTime]. The six
    keys come in a fixed order. *)
Theorem article_field_chains (content : pydict) :
  ∃ fields,
    News.article_record content = Ok (PDict fields) ∧
    fields.*1 = [ "title"; "publisher"; "link"; "publishedAt"; "thumbnail";
                  "relatedTickers" ] ∧
    dict_lookup "title" fields
      = Some (dict_get "title" (PStr "") content) ∧
    dict_lookup "publisher" fields = Some (News.publisher_chain content) ∧
    dict_lookup "link" fields = Some (News.link_chain content) ∧
    dict_lookup "publishedAt" fields = Some (News.publishedAt_chain content) ∧
    dict_lookup "thumbnail" fields = Some (News.thumbnail_chain content).
Proof.
  unfold News.article_record.
  rewrite publisher_of_chain, link_of_chain, thumbnail_of_chain.
  destruct (relatedTickers_of_ok content) as [r ->]. simpl.
  eexists. split; [reflexivity|]. simpl. repeat split.
Qed.

Lemma normalize_loop_ok_finite (h : Prices.hist) (acc prices : list pyval) :
  for_loop (λ prices '(d, r),
              bar ← Prices.price_bar d r; Ok (prices ++ [bar])%list)
           h acc = Ok prices →
  Forall (λ item, finite (Prices.Volume (snd item)) = true) h.
Proof.
  revert acc. induction h as [|[d r] h IH]; intros acc Hn; [constructor|].
  simpl in Hn. unfold Prices.price_bar in Hn.
  destruct (Prices.Volume r) as [| |q] eqn:Hv; simpl in Hn; try discriminate.
  constructor; [simpl; by rewrite Hv|]. by eapply IH.
Qed.

(** The price normaliser succeeds exactly on the tables all of whose
    rows have a finite volume. *)
Theorem price_normalize_ok_iff_finite (h : Prices.hist) :
  (∃ prices, Prices.normalize h = Ok prices) ↔
  Forall (λ item, finite (Prices.Volume (snd item)) = true) h.
Proof.
  split.
  - intros [prices Hn]. by eapply normalize_loop_ok_finite.
  - intros Hfin. destruct (normalize_finite h Hfin) as (prices & Hn & _).
    eauto.
Qed.

(** A fetch that returns a table with rows, all of finite volume,
    normalises it to one bar per row. When the artifact path of the
    code can be opened, the iteration writes there the document with
    the ticker, the code, the number of rows, these bars and the time,
    lists the code in the index with as many days as the table has
    rows, and counts one success and no error. When opening it raises,
    the iteration counts one error and leaves the files and the index
    as they were. *)
Theorem fetch_writes_or_counts_error
    (w : Prices.world) (st : Prices.state) (code ticker : string)
    (h : Prices.hist) :
  Prices.seen_tickers st !! ticker = None →
  Prices.history w (Prices.calls st) ticker = Ok h →
  h ≠ [] →
  Forall (λ item, finite (Prices.Volume (snd item)) = true) h →
  ∃ st' prices,
    Prices.step w st (code, ticker) = Ok st' ∧
    Prices.normalize h = Ok prices ∧
    Forall2 Prices.bar_of_row h prices ∧
    (∀ out,
       Prices.out_path w code = At out →
       Prices.out_dir st'
         = <[out := FJson (PDict (Prices.price_artifact ticker code prices
                                    (Prices.clock w (Prices.ticks st))))]>
             (Prices.out_dir st) ∧
       Prices.price_index st'
         = dict_set code
             (Prices.index_entry ticker (PInt (Z.of_nat (length h))))
             (Prices.price_index st) ∧
       Prices.success_count st' = S (Prices.success_count st) ∧
       Prices.error_count st' = Prices.error_count st) ∧
    (∀ e,
       open_w (Prices.out_path w code) = Raise e →
       Prices.out_dir st' = Prices.out_dir st ∧
       Prices.price_index st' = Prices.price_index st ∧
       Prices.success_count st' = Prices.success_count st ∧
       Prices.error_count st' = S (Prices.error_count st)).
Proof.
  intros Hunseen Hhist Hne Hfin.
  destruct (normalize_finite h Hfin) as (prices & Hn & Hall).
  rewrite (step_unseen _ _ _ _ Hunseen).
  exists (Prices.fetch w st code ticker), prices.
  split; [done|]. split; [done|]. split; [done|].
  destruct (fetch_cases w st code ticker)
    as [[_ E]|[[-> [[e E]|[(h' & e & E & En)|(h' & pr & e & _ & _ & _ & Eo)]]]
              |(h' & prices' & out & E & _ & En & Eout & ->)]];
    try congruence.
  - split.
    + intros out Hout. rewrite Hout in Eo. discriminate Eo.
    + intros _ _. done.
  - assert (h' = h) as -> by congruence.
    assert (prices' = prices) as -> by congruence.
    split.
    + intros out' Hout'. assert (out' = out) as -> by congruence.
      simpl. rewrite <- (Forall2_length _ _ _ Hall). done.
    + intros e Ho. rewrite Eout in Ho. discriminate Ho.
Qed.

Lemma fetch_writes_or_counts_error_witness :
  ∃ st' prices,
    Prices.step Prices.provider_up (Prices.init ∅) ("0001", "0001.HK")
      = Ok st' ∧
    Prices.normalize Prices.sample_hist = Ok prices ∧
    Forall2 Prices.bar_of_row Prices.sample_hist prices ∧
    (∀ out,
       Prices.out_path Prices.provider_up "0001" = At out →
       Prices.out_dir st'
         = <[out := FJson (PDict (Prices.price_artifact "0001.HK" "0001"
                                    prices
                                    (Prices.clock Prices.provider_up
                                       (Prices.ticks (Prices.init ∅)))))]>
             (Prices.out_dir (Prices.init ∅)) ∧
       Prices.price_index st'
         = dict_set "0001"
             (Prices.index_entry "0001.HK"
                (PInt (Z.of_nat (length Prices.sample_hist))))
             (Prices.price_index (Prices.init ∅)) ∧
       Prices.success_count st' = S (Prices.success_count (Prices.init ∅)) ∧
       Prices.error_count st' = Prices.error_count (Prices.init ∅)) ∧
    (∀ e,
       open_w (Prices.out_path Prices.provider_up "0001") = Raise e →
       Prices.out_dir st' = Prices.out_dir (Prices.init ∅) ∧
       Prices.price_index st' = Prices.price_index (Prices.init ∅) ∧
       Prices.success_count st' = Prices.success_count (Prices.init ∅) ∧
       Prices.error_count st' = S (Prices.error_count (Prices.init ∅))).
Proof.
  apply (fetch_writes_or_counts_error Prices.provider_up (Prices.init ∅)
           "0001" "0001.HK" Prices.sample_hist); try done.
  repeat constructor.
Defined.

End Normalizers.
